(** * bin/split-silo-database: the silo table partitioner

    A shallow embedding of the development script that splits a monolith
    Postgres database into a control and a region database.  The script
    talks to three collaborators: the operator's console ([click.echo]),
    a Postgres container reached through the docker client
    ([container.exec_run]) and the [OrganizationMapping] table reached
    through the ORM.  Here they are one [World] threaded through a small
    state monad; every effect also leaves an [event] in a trace, so the
    order of effects can be stated. *)

From Stdlib Require Import List String Ascii ZArith Bool Arith Lia.
From Stdlib Require Import DecimalString Permutation.
Import ListNotations.
Local Open Scope list_scope.
Local Open Scope string_scope.

(** ** Data model *)

(** [sentry.silo.base.SiloMode].  The script names two of its members,
    [CONTROL] and [REGION]; [MONOLITH] stands for the member the script never
    tests for. *)
Inductive SiloMode : Type := MONOLITH | CONTROL | REGION.

Definition SiloMode_eqb (a b : SiloMode) : bool :=
  match a, b with
  | MONOLITH, MONOLITH | CONTROL, CONTROL | REGION, REGION => true
  | _, _ => false
  end.

(** The object stored as [model._meta.silo_limit]: it carries a collection
    [modes], queried with [in]. *)
Record SiloLimit : Type := { modes : list SiloMode }.

Definition mode_in (m : SiloMode) (sl : SiloLimit) : bool :=
  existsb (SiloMode_eqb m) (modes sl).

(** What the script reads from a registered model: [model._meta.db_table] and
    [getattr(model._meta, "silo_limit", None)].  A limit object is truthy, so
    [if not silo_limit] is taken exactly when the attribute is [None]. *)
Record Model : Type := {
  db_table : string;
  silo_limit : option SiloLimit
}.

(** A row of the organization mapping table.  The script touches the column
    [region_name] only; [pk] and [columns] stand for the rest of the row. *)
Record OrganizationMapping : Type := {
  pk : Z;
  columns : list (string * string);
  region_name : string
}.

Definition set_region_name (new : string) (r : OrganizationMapping)
  : OrganizationMapping :=
  {| pk := pk r; columns := columns r; region_name := new |}.

Section Script.

(** The bytes a container exec captures, and the state of the docker
    daemon (files and databases inside the containers). *)
Variables Output DockerState : Type.

(** ** The collaborators outside the script *)
Record Host : Type := {
  (** [str(output)], as an f-string renders the captured output *)
  format_output : Output -> string;
  (** [client.containers.get(name).exec_run(cmd=..., stdout=True, stderr=True)]:
      the exit code, the captured output and the daemon afterwards *)
  container_exec_run : DockerState -> string -> string -> (Z * Output) * DockerState;
  (** [settings.SENTRY_MONOLITH_REGION] *)
  SENTRY_MONOLITH_REGION : string;
  (** [os.environ.get("USE_OLD_DEVSERVICES")] *)
  USE_OLD_DEVSERVICES : option string;
  (** [apps.get_models()] *)
  get_models : list Model
}.

(** What the script does to the outside, in order. *)
Inductive event : Type :=
| Echo (line : string)
| Exec (container : string) (cmd : string) (exit_code : Z) (output : Output)
| Update (legacy new : string).

Record World : Type := {
  mappings : list OrganizationMapping;
  docker : DockerState;
  trace : list event
}.

Definition log (e : event) (w : World) : World :=
  {| mappings := mappings w; docker := docker w; trace := (trace w ++ [e])%list |}.

(** ** The state monad of the script *)
Definition M (A : Type) : Type := World -> A * World.

Definition ret {A} (a : A) : M A := fun w => (a, w).

Definition bind {A B} (m : M A) (k : A -> M B) : M B :=
  fun w => let (a, w') := m w in k a w'.

Notation "x <- c1 ;; c2" := (bind c1 (fun x => c2))
  (at level 61, c1 at next level, right associativity).
Notation "c1 ;; c2" := (bind c1 (fun _ => c2))
  (at level 61, right associativity).

Definition when (b : bool) (m : M unit) : M unit :=
  if b then m else ret tt.

Variable h : Host.

(** [click.echo(line)] *)
Definition click_echo (line : string) : M unit :=
  fun w => (tt, log (Echo line) w).

(** [container.exec_run(cmd=cmd, stdout=True, stderr=True)] on the container
    called [name] *)
Definition docker_exec (name cmd : string) : M (Z * Output) :=
  fun w =>
    let '((exit_code, output), d) := container_exec_run h (docker w) name cmd in
    ((exit_code, output),
     log (Exec name cmd exit_code output)
         {| mappings := mappings w; docker := d; trace := trace w |}).

(** [len(OrganizationMapping.objects.filter(region_name=legacy))] *)
Definition has_region (legacy : string) (r : OrganizationMapping) : bool :=
  region_name r =? legacy.

Definition objects_filter_len (legacy : string) : M nat :=
  fun w => (List.length (filter (has_region legacy) (mappings w)), w).

(** [OrganizationMapping.objects.filter(region_name=legacy).update(region_name=new)]:
    one UPDATE over the rows that match when it runs *)
Definition objects_filter_update (legacy new : string) : M unit :=
  fun w =>
    (tt,
     log (Update legacy new)
         {| mappings :=
              map (fun r => if has_region legacy r then set_region_name new r else r)
                  (mappings w);
            docker := docker w;
            trace := trace w |}).

(** ** exec_run *)

Definition dquote : string := String "034"%char EmptyString.

(** [" ".join(command)] *)
Definition join (command : list string) : string := String.concat " " command.

Definition wrapped_command (command : list string) : string :=
  "sh -c " ++ dquote ++ join command ++ dquote.

Definition exec_run (container : string) (command : list string) : M Output :=
  r <- docker_exec container (wrapped_command command) ;;
  let (exit_code, output) := r : Z * Output in
  when (negb (exit_code =? 0)%Z)
       (click_echo "Container operation Failed!" ;;
        click_echo ("Container operation failed with " ++ format_output h output)) ;;
  ret output.

(** ** split_database *)

(** [f"/tmp/{destination}-tables.sql"] *)
Definition dump_file (destination : string) : string :=
  "/tmp/" ++ destination ++ "-tables.sql".

(** The [command] list of [split_database] once it is complete: the fixed
    head, the loop's [command.extend(["-t", table])], the redirection. *)
Definition pg_dump_command (tables : list string) (source destination : string)
  : list string :=
  let command := ["pg_dump"; "-U"; "postgres"; "-d"; source; "--clean"] in
  let command := fold_left (fun command table => (command ++ ["-t"; table])%list) tables command in
  (command ++ [">"; dump_file destination])%list.

Definition postgres_container : string :=
  match USE_OLD_DEVSERVICES h with
  | Some v => if v =? "1" then "sentry_postgres" else "sentry-postgres-1"
  | None => "sentry-postgres-1"
  end.

Definition split_database (tables : list string) (source destination : string)
           (reset verbose : bool) : M unit :=
  click_echo (">> Dumping tables from " ++ source ++ " database") ;;
  let command := pg_dump_command tables source destination in
  let postgres := postgres_container in
  when verbose (click_echo (">> Running " ++ join command)) ;;
  exec_run postgres command ;;
  when reset
       (click_echo (">> Dropping existing " ++ destination ++ " database") ;;
        exec_run postgres ["dropdb"; "-U"; "postgres"; "--if-exists"; destination] ;;
        exec_run postgres ["createdb"; "-U"; "postgres"; destination] ;;
        ret tt) ;;
  let citext_command :=
    ["psql"; "-U"; "postgres"; destination; "-c";
     "'CREATE EXTENSION IF NOT EXISTS citext'"] in
  when verbose (click_echo (">> RUNNING: " ++ join citext_command)) ;;
  exec_run postgres citext_command ;;
  click_echo (">> Building " ++ destination ++ " database from dump file") ;;
  let import_command :=
    ["psql"; "-U"; "postgres"; destination; "<"; dump_file destination] in
  when verbose (click_echo (">> Running " ++ join import_command)) ;;
  exec_run postgres import_command ;;
  ret tt.

(** ** revise_organization_mappings *)

(** [f"{record_count}"]: a count in decimal *)
Definition str_of_nat (n : nat) : string :=
  NilEmpty.string_of_uint (Nat.to_uint n).

Definition revise_organization_mappings (legacy_region_name : string) : M unit :=
  if SENTRY_MONOLITH_REGION h =? legacy_region_name then
    click_echo
      "> No OrganizationMapping have been modified. Set 'SENTRY_MONOLITH_REGION' in sentry.conf.py to update monolith mappings."
  else
    record_count <- objects_filter_len legacy_region_name ;;
    objects_filter_update legacy_region_name (SENTRY_MONOLITH_REGION h) ;;
    click_echo
      ("> " ++ str_of_nat record_count
       ++ " OrganizationMapping record(s) have been updated from '"
       ++ legacy_region_name ++ "' to '" ++ SENTRY_MONOLITH_REGION h ++ "'").

(** ** main *)

(** The lists [main] starts from: the tables inherited from django, which
    carry no silo annotation. *)
Definition region_tables_seed : list string :=
  ["django_migrations"; "django_content_type"].

Definition control_tables_seed : list string :=
  ["django_migrations"; "django_admin_log"; "django_content_type";
   "django_site"; "django_session"; "auth_user"; "auth_group";
   "auth_permission"; "auth_group_permissions"; "auth_user_groups";
   "auth_user_user_permissions"].

(** A [for] loop over a list whose body updates the local variables [S]. *)
Fixpoint for_each {A S : Type} (body : S -> A -> M S) (xs : list A) (s : S) : M S :=
  match xs with
  | [] => ret s
  | x :: xs' => s' <- body s x ;; for_each body xs' s'
  end.

(** The body of [for model in apps.get_models()], on the pair
    [(control_tables, region_tables)]. *)
Definition classify_model (lists : list string * list string) (model : Model)
  : M (list string * list string) :=
  let (control_tables, region_tables) := lists in
  match silo_limit model with
  | None =>
      click_echo ("> Could not find silo assignment for " ++ db_table model) ;;
      ret (control_tables, region_tables)
  | Some silo_limit =>
      let control_tables :=
        if mode_in CONTROL silo_limit
        then (control_tables ++ [db_table model])%list else control_tables in
      let region_tables :=
        if mode_in REGION silo_limit
        then (region_tables ++ [db_table model])%list else region_tables in
      ret (control_tables, region_tables)
  end.

(** The first part of [main]: both lists after the loop. *)
Definition table_lists : M (list string * list string) :=
  for_each classify_model (get_models h) (control_tables_seed, region_tables_seed).

Definition main (database : string) (reset verbose : bool)
           (legacy_region_name : string) : M unit :=
  lists <- table_lists ;;
  let (control_tables, region_tables) := lists : list string * list string in
  revise_organization_mappings legacy_region_name ;;
  split_database control_tables database "control" reset verbose ;;
  split_database region_tables database "region" reset verbose.

End Script.

Arguments Echo {Output} line.
Arguments Update {Output} legacy new.
Arguments Exec {Output} container cmd exit_code output.
Arguments mappings {Output DockerState} w.
Arguments docker {Output DockerState} w.
Arguments trace {Output DockerState} w.
Arguments format_output {Output DockerState} h _.
Arguments container_exec_run {Output DockerState} h _ _ _.
Arguments SENTRY_MONOLITH_REGION {Output DockerState} h.
Arguments USE_OLD_DEVSERVICES {Output DockerState} h.
Arguments get_models {Output DockerState} h.
Arguments ret {Output DockerState A} a w.
Arguments bind {Output DockerState A B} m k w.
Arguments click_echo {Output DockerState} line w.
Arguments exec_run {Output DockerState} h container command w.
Arguments split_database {Output DockerState} h tables source destination reset verbose w.
Arguments revise_organization_mappings {Output DockerState} h legacy_region_name w.
Arguments classify_model {Output DockerState} lists model w.
Arguments for_each {Output DockerState A S} body xs s w.
Arguments table_lists {Output DockerState} h w.
Arguments main {Output DockerState} h database reset verbose legacy_region_name w.
Arguments postgres_container {Output DockerState} h.
Arguments log {Output DockerState} e w.
Arguments when {Output DockerState} b m w.
Arguments docker_exec {Output DockerState} h name cmd w.
Arguments objects_filter_len {Output DockerState} legacy w.
Arguments objects_filter_update {Output DockerState} legacy new w.

(** ** Reading a trace *)

(** The effects on the databases, without console lines and without what the
    container answered. *)
Inductive action : Type :=
| Run (container cmd : string)
| Rewrite (legacy new : string).

Definition actions {Output} (tr : list (event Output)) : list action :=
  flat_map (fun e => match e with
                     | Echo _ => []
                     | Exec container cmd _ _ => [Run container cmd]
                     | Update legacy new => [Rewrite legacy new]
                     end) tr.

(** The two console lines [exec_run] prints for a failed exec. *)
Definition failure_report {Output} (fmt : Output -> string) (output : Output)
  : list (event Output) :=
  [Echo "Container operation Failed!";
   Echo ("Container operation failed with " ++ fmt output)].

(** Every exec of the trace that ended with a non-zero exit code is followed
    at once by its failure report. *)
Fixpoint failures_reported {Output} (fmt : Output -> string)
         (tr : list (event Output)) : bool :=
  match tr with
  | [] => true
  | Exec _ _ exit_code output :: rest =>
      if (exit_code =? 0)%Z then failures_reported fmt rest
      else
        match rest with
        | Echo l1 :: Echo l2 :: rest' =>
            (l1 =? "Container operation Failed!")
            && (l2 =? "Container operation failed with " ++ fmt output)
            && failures_reported fmt rest'
        | _ => false
        end
  | _ :: rest => failures_reported fmt rest
  end.

(** The commands of one [split_database] call, in program order. *)
Definition split_database_steps (tables : list string) (source destination : string)
           (reset : bool) : list (list string) :=
  ([pg_dump_command tables source destination]
   ++ (if reset
       then [["dropdb"; "-U"; "postgres"; "--if-exists"; destination];
             ["createdb"; "-U"; "postgres"; destination]]
       else [])
   ++ [["psql"; "-U"; "postgres"; destination; "-c";
        "'CREATE EXTENSION IF NOT EXISTS citext'"];
       ["psql"; "-U"; "postgres"; destination; "<"; dump_file destination]])%list.

(** The values [pg_dump] receives for its [-t] option when it reads [argv]
    left to right: [-U], [-d] and [-t] each take the next word as their value. *)
Definition takes_value (word : string) : bool :=
  (word =? "-U") || (word =? "-d") || (word =? "-t").

Fixpoint t_values (pending : option string) (argv : list string) : list string :=
  match argv with
  | [] => []
  | word :: rest =>
      match pending with
      | Some opt => ((if opt =? "-t" then [word] else []) ++ t_values None rest)%list
      | None => t_values (if takes_value word then Some word else None) rest
      end
  end.

Definition t_arguments (argv : list string) : list string := t_values None argv.

(** The tables the loop of [main] appends for one silo mode. *)
Definition allows (mode : SiloMode) (model : Model) : bool :=
  match silo_limit model with
  | Some sl => mode_in mode sl
  | None => false
  end.

Definition tables_of (mode : SiloMode) (models : list Model) : list string :=
  map db_table (filter (allows mode) models).

(** The same host with other exit codes: [code] chooses the exit code of every
    exec, outputs and daemon states stay as they are. *)
Definition with_exit_codes {Output DockerState}
           (code : DockerState -> string -> string -> Z)
           (h : Host Output DockerState) : Host Output DockerState :=
  {| format_output := format_output h;
     container_exec_run := fun d name cmd =>
       let '((_, output), d') := container_exec_run h d name cmd in
       ((code d name cmd, output), d');
     SENTRY_MONOLITH_REGION := SENTRY_MONOLITH_REGION h;
     USE_OLD_DEVSERVICES := USE_OLD_DEVSERVICES h;
     get_models := get_models h |}.

(** ** A small installation to run the script on *)
Module Demo.

Definition user : Model :=
  {| db_table := "auth_user"; silo_limit := Some {| modes := [CONTROL] |} |}.
Definition organizationmapping : Model :=
  {| db_table := "sentry_organizationmapping";
     silo_limit := Some {| modes := [CONTROL] |} |}.
Definition project : Model :=
  {| db_table := "sentry_project"; silo_limit := Some {| modes := [REGION] |} |}.
Definition contenttype : Model :=
  {| db_table := "django_content_type"; silo_limit := None |}.

(** The daemon state counts the execs so far; the first exec succeeds and
    every later one fails with exit code 1. *)
Definition daemon (d : nat) (name cmd : string) : (Z * string) * nat :=
  ((if Nat.eqb d 0 then 0%Z else 1%Z, "psql: FATAL"), S d).

Definition host (models : list Model) : Host string nat :=
  {| format_output := fun output => output;
     container_exec_run := daemon;
     SENTRY_MONOLITH_REGION := "us";
     USE_OLD_DEVSERVICES := None;
     get_models := models |}.

Definition row (id : Z) (slug region : string) : OrganizationMapping :=
  {| pk := id; columns := [("slug", slug)]; region_name := region |}.

Definition world : World string nat :=
  {| mappings := [row 1 "acme" "--monolith--"; row 2 "umbrella" "de";
                  row 3 "initech" "--monolith--"];
     docker := 0;
     trace := [] |}.

(** A model whose limit names neither CONTROL nor REGION. *)
Definition legacy_model : Model :=
  {| db_table := "sentry_legacy"; silo_limit := Some {| modes := [MONOLITH] |} |}.

End Demo.

(** ** Specifications of commands *)

(** [m] only appends to the trace, and what it appends satisfies [P]. *)
Definition emits {Output DockerState A} (m : M Output DockerState A)
           (P : list (event Output) -> Prop) : Prop :=
  forall w, exists delta,
    trace (snd (m w)) = (trace w ++ delta)%list /\ P delta.

(** [delta] performs exactly [acts], in that order, and reports every failed
    exec. *)
Definition runs {Output} (fmt : Output -> string) (acts : list action)
           (delta : list (event Output)) : Prop :=
  actions delta = acts /\ failures_reported fmt delta = true.

(** The warning [main] prints for a model without silo assignment. *)
Definition warning {Output} (model : Model) : event Output :=
  Echo ("> Could not find silo assignment for " ++ db_table model).

Definition warnings {Output} (models : list Model) : list (event Output) :=
  flat_map (fun model => match silo_limit model with
                         | None => [warning model]
                         | Some _ => []
                         end) models.

(** The actions of one [split_database] call on the container [name]. *)
Definition split_database_actions (name : string) (tables : list string)
           (source destination : string) (reset : bool) : list action :=
  map (fun command => Run name (wrapped_command command))
      (split_database_steps tables source destination reset).

(** The number of rows whose region name differs between two states of the
    mapping table. *)
Definition updated_rows (before after : list OrganizationMapping) : nat :=
  List.length
    (filter (fun p => negb (region_name (fst p) =? region_name (snd p)))
            (combine before after)).

(** Two worlds that differ at most in console lines and in the exit codes
    recorded in the trace. *)
Definition same_effects {Output DockerState} (w1 w2 : World Output DockerState) : Prop :=
  mappings w1 = mappings w2
  /\ docker w1 = docker w2
  /\ actions (trace w1) = actions (trace w2).

(** Two commands that return the same value and keep the worlds in step. *)
Definition in_step {Output DockerState A} (m1 m2 : M Output DockerState A) : Prop :=
  forall w1 w2, same_effects w1 w2 ->
    fst (m1 w1) = fst (m2 w2) /\ same_effects (snd (m1 w1)) (snd (m2 w2)).

(** The database actions of a whole run of [main]. *)
Definition main_actions {Output DockerState} (h : Host Output DockerState)
           (database : string) (reset : bool) (legacy : string) : list action :=
  ((if SENTRY_MONOLITH_REGION h =? legacy then []
    else [Rewrite legacy (SENTRY_MONOLITH_REGION h)])
   ++ split_database_actions
        (postgres_container h)
        (control_tables_seed ++ tables_of CONTROL (get_models h))
        database "control" reset
   ++ split_database_actions
        (postgres_container h)
        (region_tables_seed ++ tables_of REGION (get_models h))
        database "region" reset)%list.


(** The first line of a failure report, and how often a trace prints it. *)
Definition failure_line : string := "Container operation Failed!".

Definition failure_lines {Output} (tr : list (event Output)) : nat :=
  List.length (filter (fun e => match e with
                                | Echo line => line =? failure_line
                                | _ => false
                                end) tr).

(** The execs of a trace that ended with a non-zero exit code. *)
Definition failed_execs {Output} (tr : list (event Output)) : nat :=
  List.length (filter (fun e => match e with
                                | Exec _ _ exit_code _ => negb (exit_code =? 0)%Z
                                | _ => false
                                end) tr).

Definition tallies {Output} (delta : list (event Output)) : Prop :=
  failure_lines delta = failed_execs delta.

(** How many rows of the mapping table carry a region name. *)
Definition rows_in (region : string) (rows : list OrganizationMapping) : nat :=
  count_occ string_dec (map region_name rows) region.

(** * The list of a grid select: components/core/compactSelect/gridList *)

Module GridList.
Section Collection.

(** [SelectKey] *)
Variable Key : Type.

(** A node of [listState.collection], as far as [GridList] looks at it. *)
Unset Elimination Schemes.
Inductive Node : Type :=
| Build_Node (type : string) (key : Key) (childNodes : list Node).
Set Elimination Schemes.

Definition type (node : Node) : string :=
  match node with Build_Node type _ _ => type end.

Definition key (node : Node) : Key :=
  match node with Build_Node _ key _ => key end.

Definition childNodes (node : Node) : list Node :=
  match node with Build_Node _ _ childNodes => childNodes end.

(** The memoised [listItems]; [hiddenOptions] is the set of the filter
    context, given by its [has]. *)
Definition listItems (collection : list Node) (hiddenOptions : Key -> bool)
  : list Node :=
  filter (fun node =>
            if type node =? "section"
            then negb (forallb (fun child => hiddenOptions (key child))
                               (childNodes node))
            else negb (hiddenOptions (key node)))
         collection.

End Collection.

Arguments Build_Node {Key} type key childNodes.
Arguments type {Key} node.
Arguments key {Key} node.
Arguments childNodes {Key} node.
Arguments listItems {Key} collection hiddenOptions.

End GridList.

(** * The saved searches sidebar: [SavedIssueSearches] *)

Module SavedSearches.

(** The fields of a [SavedSearch] the sidebar reads. *)
Record SavedSearch : Type := {
  id : string;
  name : string;
  dateCreated : string;
  isGlobal : bool;
  isPinned : bool
}.

Definition MAX_SHOWN_SEARCHES : nat := 4.

(** What the component returns: [null], the loading indicator, the loading
    error, or the sidebar with its list of searches, the text for an empty
    list, the count on the button that shows the rest, and the recommended
    searches when there are any. *)
Inductive rendering : Type :=
| Null
| Loading
| LoadError
| Sidebar (shown : list SavedSearch) (noSavedSearchesText : bool)
          (showMore : option nat) (recommended : option (list SavedSearch)).

(** [hasMenu] of a [SavedSearchItem] *)
Definition hasMenu (savedSearch : SavedSearch) : bool := negb (isGlobal savedSearch).

Section Sidebar.

(** lodash's [orderBy(_, 'dateCreated', 'desc')] *)
Variable orderBy : list SavedSearch -> list SavedSearch.

Definition orgSavedSearches (savedSearches : list SavedSearch) : list SavedSearch :=
  orderBy (filter (fun search => negb (isGlobal search) && negb (isPinned search))
                  savedSearches).

Definition recommendedSavedSearches (savedSearches : list SavedSearch)
  : list SavedSearch :=
  filter (fun search => isGlobal search) savedSearches.

Definition shownOrgSavedSearches (showAll : bool) (savedSearches : list SavedSearch)
  : list SavedSearch :=
  if showAll then orgSavedSearches savedSearches
  else firstn MAX_SHOWN_SEARCHES (orgSavedSearches savedSearches).

Definition SavedIssueSearches (isOpen isMobile prefersStackedNav isPending isError
                               showAll : bool)
           (savedSearches : list SavedSearch) : rendering :=
  let shouldShowSavedSearches := negb prefersStackedNav in
  if negb isOpen || isMobile || negb shouldShowSavedSearches then Null
  else if isPending then Loading
  else if isError then LoadError
  else
    let org := orgSavedSearches savedSearches in
    let recommended := recommendedSavedSearches savedSearches in
    let shown := shownOrgSavedSearches showAll savedSearches in
    Sidebar shown
            (List.length shown =? 0)%nat
            (if (List.length shown <? List.length org)%nat
             then Some (List.length org - List.length shown)
             else None)
            (if (0 <? List.length recommended)%nat then Some recommended else None).

End Sidebar.

(** A stable sort by [dateCreated], latest first, to run the sidebar with. *)
Fixpoint insert_desc (search : SavedSearch) (sorted : list SavedSearch)
  : list SavedSearch :=
  match sorted with
  | [] => [search]
  | other :: rest =>
      if String.ltb (dateCreated other) (dateCreated search)
      then search :: other :: rest
      else other :: insert_desc search rest
  end.

Definition sort_desc (searches : list SavedSearch) : list SavedSearch :=
  fold_right insert_desc [] searches.

End SavedSearches.

Module DemoSearches.

(** Saved searches: five of the organization, one pinned, one global. *)
Definition search (id date : string) (global pinned : bool)
  : SavedSearches.SavedSearch :=
  {| SavedSearches.id := id; SavedSearches.name := id;
     SavedSearches.dateCreated := date;
     SavedSearches.isGlobal := global; SavedSearches.isPinned := pinned |}.

Definition searches : list SavedSearches.SavedSearch :=
  [search "1" "2024-01-05" false false; search "2" "2024-03-01" false false;
   search "3" "2023-12-24" true false; search "4" "2024-02-11" false true;
   search "5" "2024-02-12" false false; search "6" "2022-07-30" false false;
   search "7" "2024-04-02" false false].

End DemoSearches.

(** * Properties *)

Section Traces.
Context {Output : Type} (fmt : Output -> string).

Lemma actions_app (t1 t2 : list (event Output)) :
  actions (t1 ++ t2) = (actions t1 ++ actions t2)%list.
Proof. unfold actions. apply flat_map_app. Qed.

Lemma failures_reported_app (t1 t2 : list (event Output)) :
  failures_reported fmt t1 = true ->
  failures_reported fmt t2 = true ->
  failures_reported fmt (t1 ++ t2) = true.
Proof.
  intros H1 H2. revert H1.
  induction t1 as [t1 IH] using (well_founded_induction
                                   (Wf_nat.well_founded_ltof _ (@List.length _))).
  destruct t1 as [|e rest]; [intros _; exact H2|].
  destruct e as [line|c cmd code out|l n]; cbn [failures_reported app].
  - apply IH. unfold Wf_nat.ltof. cbn. lia.
  - destruct (code =? 0)%Z.
    + apply IH. unfold Wf_nat.ltof. cbn. lia.
    + destruct rest as [|[l1| |] [|[l2| |] rest']]; cbn [app]; try discriminate.
      intros H. apply andb_true_iff in H as [H H3]. rewrite H. cbn [andb].
      apply IH; [unfold Wf_nat.ltof; cbn; lia | exact H3].
  - apply IH. unfold Wf_nat.ltof. cbn. lia.
Qed.

Lemma runs_nil : runs fmt [] [].
Proof. split; reflexivity. Qed.

Lemma runs_echo (line : string) : runs fmt [] [Echo line].
Proof. split; reflexivity. Qed.

Lemma runs_app (a1 a2 : list action) (d1 d2 : list (event Output)) :
  runs fmt a1 d1 -> runs fmt a2 d2 -> runs fmt (a1 ++ a2) (d1 ++ d2).
Proof.
  intros [A1 R1] [A2 R2]. split.
  - rewrite actions_app. now subst.
  - now apply failures_reported_app.
Qed.

End Traces.

Section Commands.
Context {Output DockerState : Type} (h : Host Output DockerState).

Local Abbreviation fmt := (format_output h).
Local Abbreviation M := (M Output DockerState).

Lemma emits_ret {A} (a : A) : emits (ret a : M A) (runs fmt []).
Proof. intros w. exists []. cbn. rewrite app_nil_r. split; [reflexivity | apply runs_nil]. Qed.

Lemma emits_bind {A B} (m : M A) (k : A -> M B) (a1 a2 : list action) :
  emits m (runs fmt a1) ->
  (forall x, emits (k x) (runs fmt a2)) ->
  emits (bind m k) (runs fmt (a1 ++ a2)).
Proof.
  intros Hm Hk w. unfold bind.
  destruct (Hm w) as (d1 & E1 & R1).
  destruct (m w) as [x w1]. cbn [snd] in E1.
  destruct (Hk x w1) as (d2 & E2 & R2).
  exists (d1 ++ d2)%list. split.
  - rewrite E2, E1. now rewrite app_assoc.
  - now apply runs_app.
Qed.

Lemma emits_echo (line : string) :
  emits (click_echo line : M unit) (runs fmt []).
Proof. intros w. exists [Echo line]. split; [reflexivity | apply runs_echo]. Qed.

Lemma emits_when (b : bool) (m : M unit) (a : list action) :
  emits m (runs fmt a) ->
  emits (when b m) (runs fmt (if b then a else [])).
Proof. intros Hm. destruct b; [exact Hm | apply emits_ret]. Qed.

(** What one [exec_run] does to the world, given what the container answers. *)
Lemma exec_run_eq (container : string) (command : list string)
      (w : World Output DockerState) (exit_code : Z) (output : Output)
      (d : DockerState) :
  container_exec_run h (docker w) container (wrapped_command command)
  = ((exit_code, output), d) ->
  exec_run h container command w
  = (output,
     {| mappings := mappings w;
        docker := d;
        trace := (trace w
                  ++ Exec container (wrapped_command command) exit_code output
                  :: (if (exit_code =? 0)%Z then [] else failure_report fmt output))%list |}).
Proof.
  intros E. unfold exec_run, bind, docker_exec. rewrite E.
  unfold when, click_echo, ret, bind, log, failure_report.
  destruct (exit_code =? 0)%Z; cbn [negb mappings docker trace].
  - reflexivity.
  - now rewrite <- !app_assoc.
Qed.

Lemma emits_exec_run (container : string) (command : list string) :
  emits (exec_run h container command)
        (runs fmt [Run container (wrapped_command command)]).
Proof.
  intros w.
  destruct (container_exec_run h (docker w) container (wrapped_command command))
    as [[exit_code output] d] eqn:E.
  rewrite (exec_run_eq _ _ _ _ _ _ E). cbn [snd trace].
  eexists. split; [reflexivity|]. split; [now destruct (exit_code =? 0)%Z|].
  cbn [failures_reported]. destruct (exit_code =? 0)%Z; [reflexivity|].
  cbn. now rewrite !String.eqb_refl.
Qed.

(** Sequencing after the three kinds of step [split_database] is made of. *)
Lemma emits_echo_then {B} (line : string) (k : M B) (a : list action) :
  emits k (runs fmt a) ->
  emits (bind (click_echo line) (fun _ => k)) (runs fmt a).
Proof.
  intros Hk. change a with ([] ++ a)%list.
  apply emits_bind; [apply emits_echo | intros _; exact Hk].
Qed.

Lemma emits_verbose_then {B} (verbose : bool) (line : string) (k : M B)
      (a : list action) :
  emits k (runs fmt a) ->
  emits (bind (when verbose (click_echo line)) (fun _ => k)) (runs fmt a).
Proof.
  intros Hk. change a with ([] ++ a)%list.
  apply emits_bind; [| intros _; exact Hk].
  destruct verbose; [apply emits_echo | apply emits_ret].
Qed.

Lemma emits_exec_run_then {B} (container : string) (command : list string)
      (k : M B) (a : list action) :
  emits k (runs fmt a) ->
  emits (bind (exec_run h container command) (fun _ => k))
        (runs fmt (Run container (wrapped_command command) :: a)).
Proof.
  intros Hk.
  change (Run container (wrapped_command command) :: a)
    with ([Run container (wrapped_command command)] ++ a)%list.
  apply emits_bind; [apply emits_exec_run | intros _; exact Hk].
Qed.

Lemma emits_split_database (tables : list string) (source destination : string)
      (reset verbose : bool) :
  emits (split_database h tables source destination reset verbose)
        (runs fmt (split_database_actions (postgres_container h) tables source
                                          destination reset)).
Proof.
  unfold split_database, split_database_actions, split_database_steps.
  rewrite !map_app. cbn [map app].
  apply emits_echo_then, emits_verbose_then, emits_exec_run_then.
  apply emits_bind.
  - destruct reset; cbn [map when]; [| apply emits_ret].
    apply emits_echo_then, emits_exec_run_then, emits_exec_run_then, emits_ret.
  - intros _.
    apply emits_verbose_then, emits_exec_run_then, emits_echo_then.
    apply emits_verbose_then, emits_exec_run_then, emits_ret.
Qed.

End Commands.

Section Classifier.
Context {Output DockerState : Type}.

Lemma tables_of_app (mode : SiloMode) (l1 l2 : list Model) :
  tables_of mode (l1 ++ l2) = (tables_of mode l1 ++ tables_of mode l2)%list.
Proof. unfold tables_of. now rewrite filter_app, map_app. Qed.

Lemma warnings_app (l1 l2 : list Model) :
  @warnings Output (l1 ++ l2) = (warnings l1 ++ warnings l2)%list.
Proof. unfold warnings. apply flat_map_app. Qed.

(** The loop of [main], from any pair of lists: both lists grow by the tables
    of the models that allow their mode, and the console by one warning for
    each model without assignment. *)
Lemma for_each_classify_model (models : list Model) :
  forall (control_tables region_tables : list string) (w : World Output DockerState),
    for_each classify_model models (control_tables, region_tables) w
    = ((control_tables ++ tables_of CONTROL models,
        region_tables ++ tables_of REGION models)%list,
       {| mappings := mappings w;
          docker := docker w;
          trace := (trace w ++ warnings models)%list |}).
Proof.
  induction models as [|model models IH]; intros ct rt w.
  - destruct w. cbn. now rewrite !app_nil_r.
  - cbn [for_each]. unfold bind at 1. unfold classify_model at 1.
    unfold tables_of, warnings, allows. cbn [filter flat_map].
    destruct (silo_limit model) as [sl|].
    + unfold ret at 1. rewrite IH.
      unfold tables_of, warnings, allows.
      destruct (mode_in CONTROL sl), (mode_in REGION sl);
        cbn [map app]; now rewrite <- ?app_assoc.
    + unfold bind, click_echo, ret, log. rewrite IH.
      unfold tables_of, warnings, allows.
      cbn [mappings docker trace app]. now rewrite <- app_assoc.
Qed.

Lemma table_lists_eq (h : Host Output DockerState) (w : World Output DockerState) :
  table_lists h w
  = ((control_tables_seed ++ tables_of CONTROL (get_models h),
      region_tables_seed ++ tables_of REGION (get_models h))%list,
     {| mappings := mappings w;
        docker := docker w;
        trace := (trace w ++ warnings (get_models h))%list |}).
Proof. apply for_each_classify_model. Qed.

End Classifier.

Section Rewriter.
Context {Output DockerState : Type} (h : Host Output DockerState).

Lemma revise_same (legacy : string) (w : World Output DockerState) :
  SENTRY_MONOLITH_REGION h = legacy ->
  revise_organization_mappings h legacy w
  = (tt,
     log (Echo "> No OrganizationMapping have been modified. Set 'SENTRY_MONOLITH_REGION' in sentry.conf.py to update monolith mappings.")
         w).
Proof.
  intros E. unfold revise_organization_mappings.
  apply String.eqb_eq in E. now rewrite E.
Qed.

Lemma revise_other (legacy : string) (w : World Output DockerState) :
  SENTRY_MONOLITH_REGION h <> legacy ->
  revise_organization_mappings h legacy w
  = (tt,
     {| mappings :=
          map (fun r => if has_region legacy r
                        then set_region_name (SENTRY_MONOLITH_REGION h) r else r)
              (mappings w);
        docker := docker w;
        trace :=
          (trace w
           ++ [Update legacy (SENTRY_MONOLITH_REGION h);
               Echo ("> " ++ str_of_nat (List.length (filter (has_region legacy) (mappings w)))
                     ++ " OrganizationMapping record(s) have been updated from '"
                     ++ legacy ++ "' to '" ++ SENTRY_MONOLITH_REGION h ++ "'")])%list |}).
Proof.
  intros E. unfold revise_organization_mappings.
  apply String.eqb_neq in E. rewrite E.
  unfold bind, objects_filter_len, objects_filter_update, click_echo, log.
  cbn [mappings docker trace]. now rewrite <- app_assoc.
Qed.

(** The database actions of the rewriter. *)
Lemma emits_revise (legacy : string) :
  emits (revise_organization_mappings h legacy)
        (runs (format_output h)
              (if SENTRY_MONOLITH_REGION h =? legacy then []
               else [Rewrite legacy (SENTRY_MONOLITH_REGION h)])).
Proof.
  intros w. destruct (String.eqb_spec (SENTRY_MONOLITH_REGION h) legacy) as [E|E].
  - rewrite (revise_same _ _ E). eexists. split; [reflexivity | apply runs_echo].
  - rewrite (revise_other _ _ E). eexists. split; [reflexivity | now split].
Qed.

(** Counting the rows of a region with the ORM and by hand agree. *)
Lemma filter_has_region_length (legacy : string) (rows : list OrganizationMapping) :
  List.length (filter (has_region legacy) rows)
  = count_occ string_dec (map region_name rows) legacy.
Proof.
  induction rows as [|r rows IH]; [reflexivity|].
  cbn [filter map count_occ]. unfold has_region at 1.
  destruct (String.eqb_spec (region_name r) legacy) as [E|E];
    destruct (string_dec (region_name r) legacy); try contradiction;
    cbn [List.length]; now rewrite IH.
Qed.

End Rewriter.

(** ** The mapping rewriter *)

Section RewriterClaims.
Context {Output DockerState : Type} (h : Host Output DockerState).

Lemma rewritten_rows (legacy new : string) (rows : list OrganizationMapping) :
  Forall2 (fun r r' => r' = if region_name r =? legacy then set_region_name new r else r)
          rows
          (map (fun r => if has_region legacy r then set_region_name new r else r) rows).
Proof. induction rows; cbn [map]; constructor; auto. Qed.

Lemma updated_rows_map (legacy new : string) (rows : list OrganizationMapping) :
  new <> legacy ->
  updated_rows rows
    (map (fun r => if has_region legacy r then set_region_name new r else r) rows)
  = List.length (filter (has_region legacy) rows).
Proof.
  intros Hne. unfold updated_rows, has_region.
  induction rows as [|r rows IH]; [reflexivity|].
  cbn [map combine filter fst snd].
  destruct (String.eqb_spec (region_name r) legacy) as [E|E].
  - cbn [set_region_name region_name]. rewrite E.
    assert ((legacy =? new) = false) as -> by (apply String.eqb_neq; congruence).
    cbn [negb List.length]. now rewrite IH.
  - rewrite String.eqb_refl. cbn [negb]. exact IH.
Qed.

(** C1. [revise_organization_mappings(l)]: when the configured monolith
    region is [l] itself, the mapping table is left as it is and no statement
    reaches the database.  Otherwise, with exactly [N] rows whose region name
    is [l]: each of those rows gets the configured monolith region as its
    region name and keeps its other columns, every other row stays as it is
    (so exactly [N] rows differ afterwards), one UPDATE is issued, and the
    console line reports [N]. *)
Theorem revise_organization_mappings_rewrites
        (l : string) (w : World Output DockerState) :
  let new := SENTRY_MONOLITH_REGION h in
  let w' := snd (revise_organization_mappings h l w) in
  (new = l ->
   mappings w' = mappings w /\ actions (trace w') = actions (trace w))
  /\
  (new <> l ->
   forall N : nat,
     count_occ string_dec (map region_name (mappings w)) l = N ->
     Forall2 (fun r r' => r' = if region_name r =? l then set_region_name new r else r)
             (mappings w) (mappings w')
     /\ updated_rows (mappings w) (mappings w') = N
     /\ trace w'
        = (trace w
           ++ [Update l new;
               Echo ("> " ++ str_of_nat N
                     ++ " OrganizationMapping record(s) have been updated from '"
                     ++ l ++ "' to '" ++ new ++ "'")])%list).
Proof.
  cbv zeta. split.
  - intros E. rewrite (revise_same h _ _ E). cbn [snd log mappings trace].
    split; [reflexivity|]. rewrite actions_app. cbn. now rewrite app_nil_r.
  - intros Hne N HN. rewrite (revise_other h _ _ Hne). cbn [snd mappings trace].
    rewrite <- filter_has_region_length in HN. subst N.
    repeat split.
    + apply rewritten_rows.
    + now apply updated_rows_map.
Qed.

(** C9. With a configured monolith region other than [l], after
    [revise_organization_mappings(l)] no row has region name [l], and every
    row whose region name was not [l] is the same row as before. *)
Theorem revise_organization_mappings_frame
        (l : string) (w : World Output DockerState) :
  SENTRY_MONOLITH_REGION h <> l ->
  let w' := snd (revise_organization_mappings h l w) in
  Forall (fun r' => region_name r' <> l) (mappings w')
  /\ Forall2 (fun r r' => region_name r <> l -> r' = r) (mappings w) (mappings w').
Proof.
  intros Hne. cbv zeta. rewrite (revise_other h _ _ Hne). cbn [snd mappings].
  split.
  - apply Forall_map, Forall_forall. intros r _. unfold has_region.
    destruct (String.eqb_spec (region_name r) l); [exact Hne | assumption].
  - induction (mappings w) as [|r rows IH]; cbn [map]; constructor; [|exact IH].
    intros Hr. unfold has_region.
    now destruct (String.eqb_spec (region_name r) l).
Qed.

End RewriterClaims.

(** On the demo table, with monolith region [us]: revising [us] changes
    nothing, revising [--monolith--] rewrites the two rows that carry it. *)
Lemma revise_organization_mappings_rewrites_witness :
  mappings (snd (revise_organization_mappings (Demo.host []) "us" Demo.world))
  = mappings Demo.world
  /\ updated_rows
       (mappings Demo.world)
       (mappings (snd (revise_organization_mappings (Demo.host []) "--monolith--"
                                                    Demo.world)))
     = 2.
Proof.
  split.
  - apply (proj1 (revise_organization_mappings_rewrites (Demo.host []) "us" Demo.world)).
    reflexivity.
  - apply (proj2 (revise_organization_mappings_rewrites (Demo.host []) "--monolith--"
                                                        Demo.world)
                 ltac:(discriminate) 2 eq_refl).
Defined.

(** On the demo table no row is left in region [--monolith--]. *)
Lemma revise_organization_mappings_frame_witness :
  Forall (fun r' => region_name r' <> "--monolith--")
         (mappings (snd (revise_organization_mappings (Demo.host []) "--monolith--"
                                                      Demo.world))).
Proof.
  apply (revise_organization_mappings_frame (Demo.host []) "--monolith--" Demo.world).
  discriminate.
Defined.

(** ** The dump command *)

Section DumpCommand.

Lemma fold_extend (tables : list string) (command : list string) :
  fold_left (fun command table => (command ++ ["-t"; table])%list) tables command
  = (command ++ flat_map (fun table => ["-t"; table]) tables)%list.
Proof.
  revert command. induction tables as [|table tables IH]; intros command.
  - cbn. now rewrite app_nil_r.
  - cbn [fold_left flat_map]. rewrite IH. now rewrite <- app_assoc.
Qed.

Lemma pg_dump_command_eq (tables : list string) (source destination : string) :
  pg_dump_command tables source destination
  = (["pg_dump"; "-U"; "postgres"; "-d"; source; "--clean"]
     ++ flat_map (fun table => ["-t"; table]) tables
     ++ [">"; dump_file destination])%list.
Proof. unfold pg_dump_command. rewrite fold_extend. now rewrite <- app_assoc. Qed.

Lemma t_values_tables (tables rest : list string) :
  t_values None (flat_map (fun table => ["-t"; table]) tables ++ rest)
  = (tables ++ t_values None rest)%list.
Proof.
  induction tables as [|table tables IH]; [reflexivity|].
  cbn [flat_map app]. cbn [t_values]. cbn [takes_value String.eqb Ascii.eqb Bool.eqb orb andb].
  cbn [app]. now rewrite IH.
Qed.

Lemma t_arguments_pg_dump_command (tables : list string) (source destination : string) :
  t_arguments (pg_dump_command tables source destination) = tables.
Proof.
  rewrite pg_dump_command_eq. unfold t_arguments.
  cbn [app]. cbn [t_values]. cbn [takes_value String.eqb Ascii.eqb Bool.eqb orb andb].
  rewrite t_values_tables. cbn [t_values]. unfold takes_value.
  cbn [String.eqb Ascii.eqb Bool.eqb orb andb].
  apply app_nil_r.
Qed.

End DumpCommand.

(** C2 as the specification words it, for the table [django_migrations],
    which is among the fixed tables of both lists: the call
    [split_database(["sentry_project"], "sentry", "region", ...)] builds a dump
    command whose only [-t] argument is the table it was given. *)
Lemma split_database_dump_omits_framework_tables :
  In "django_migrations" control_tables_seed
  /\ In "django_migrations" region_tables_seed
  /\ t_arguments (pg_dump_command ["sentry_project"] "sentry" "region")
     = ["sentry_project"]
  /\ ~ In "django_migrations"
          (t_arguments (pg_dump_command ["sentry_project"] "sentry" "region")).
Proof.
  repeat split; cbn; auto.
  intros [H|[]]. discriminate H.
Qed.

Section DumpClaims.
Context {Output DockerState : Type} (h : Host Output DockerState).

(** C2, amended.  The [-t] arguments of the dump command that
    [split_database] builds are the entries of the table list it is given, one
    each and in the same order, and no others; the fixed framework tables are
    among them in the two calls of the driver, whose lists start with them. *)
Theorem split_database_dump_tables :
  (forall (tables : list string) (source destination : string),
      t_arguments (pg_dump_command tables source destination) = tables)
  /\
  (forall (database : string) (w : World Output DockerState),
      let (control_tables, region_tables) := fst (table_lists h w) in
      t_arguments (pg_dump_command control_tables database "control")
      = (control_tables_seed ++ tables_of CONTROL (get_models h))%list
      /\ t_arguments (pg_dump_command region_tables database "region")
         = (region_tables_seed ++ tables_of REGION (get_models h))%list).
Proof.
  split.
  - apply t_arguments_pg_dump_command.
  - intros database w. rewrite table_lists_eq. cbn [fst].
    now rewrite !t_arguments_pg_dump_command.
Qed.

(** C6. Every call [split_database(tables, source, destination, reset,
    verbose)] runs, in this order and nothing else: the [pg_dump] of the given
    tables from [source] with [--clean], redirected to
    [/tmp/{destination}-tables.sql]; when [reset] is set, and only then,
    [dropdb --if-exists] and then [createdb] of the destination; the creation
    of the [citext] extension in the destination; [psql] on the destination
    fed from the dump file. *)
Theorem split_database_order
        (tables : list string) (source destination : string) (reset verbose : bool)
        (w : World Output DockerState) :
  exists delta,
    trace (snd (split_database h tables source destination reset verbose w))
    = (trace w ++ delta)%list
    /\ actions delta
       = ([Run (postgres_container h)
               (wrapped_command
                  (["pg_dump"; "-U"; "postgres"; "-d"; source; "--clean"]
                   ++ flat_map (fun table => ["-t"; table]) tables
                   ++ [">"; ("/tmp/" ++ destination ++ "-tables.sql")%string]))]
          ++ (if reset
              then [Run (postgres_container h)
                        (wrapped_command
                           ["dropdb"; "-U"; "postgres"; "--if-exists"; destination]);
                    Run (postgres_container h)
                        (wrapped_command ["createdb"; "-U"; "postgres"; destination])]
              else [])
          ++ [Run (postgres_container h)
                  (wrapped_command
                     ["psql"; "-U"; "postgres"; destination; "-c";
                      "'CREATE EXTENSION IF NOT EXISTS citext'"]);
              Run (postgres_container h)
                  (wrapped_command
                     ["psql"; "-U"; "postgres"; destination; "<";
                      ("/tmp/" ++ destination ++ "-tables.sql")%string])])%list.
Proof.
  destruct (emits_split_database h tables source destination reset verbose w)
    as (delta & E & A & _).
  exists delta. split; [exact E|]. rewrite A.
  unfold split_database_actions, split_database_steps.
  rewrite pg_dump_command_eq, !map_app. now destruct reset.
Qed.

End DumpClaims.

(** ** The table classifier *)

Section ClassifierClaims.
Context {Output DockerState : Type} (h : Host Output DockerState).

Lemma tables_of_cons (mode : SiloMode) (model : Model) (models : list Model) :
  tables_of mode (model :: models)
  = if allows mode model then db_table model :: tables_of mode models
    else tables_of mode models.
Proof. unfold tables_of. cbn [filter]. now destruct (allows mode model). Qed.

(** C3. A registered model whose silo limit allows CONTROL and not REGION:
    its pass through the loop appends its table to the control list and
    leaves the region list and the console as they are.  Over the whole
    registry the control list holds the table at the model's place, the region
    list is the one the registry without the model would give, and so the
    table is in the region list only if it is a seeded table or the table of
    another model that allows REGION. *)
Theorem classifier_control_only
        (model : Model) (sl : SiloLimit) (l1 l2 : list Model) :
  get_models h = (l1 ++ model :: l2)%list ->
  silo_limit model = Some sl ->
  mode_in CONTROL sl = true ->
  mode_in REGION sl = false ->
  (forall control_tables region_tables (w : World Output DockerState),
      classify_model (control_tables, region_tables) model w
      = ((control_tables ++ [db_table model], region_tables)%list, w))
  /\
  (forall w : World Output DockerState,
      fst (table_lists h w)
      = ((control_tables_seed ++ tables_of CONTROL l1
          ++ db_table model :: tables_of CONTROL l2)%list,
         (region_tables_seed ++ tables_of REGION (l1 ++ l2))%list)
      /\ In (db_table model) (fst (fst (table_lists h w)))
      /\ (~ In (db_table model) region_tables_seed ->
          ~ In (db_table model) (tables_of REGION (l1 ++ l2)) ->
          ~ In (db_table model) (snd (fst (table_lists h w))))).
Proof.
  intros Hreg Hsl Hc Hr.
  assert (fst_lists : forall w : World Output DockerState,
             fst (table_lists h w)
             = ((control_tables_seed ++ tables_of CONTROL l1
                 ++ db_table model :: tables_of CONTROL l2)%list,
                (region_tables_seed ++ tables_of REGION (l1 ++ l2))%list)).
  { intros w. rewrite table_lists_eq, Hreg. cbn [fst].
    rewrite !tables_of_app, !tables_of_cons. unfold allows.
    now rewrite Hsl, Hc, Hr. }
  split.
  - intros ct rt w. unfold classify_model. now rewrite Hsl, Hc, Hr.
  - intros w. rewrite fst_lists. cbn [fst snd]. repeat split.
    + apply in_or_app. right. apply in_or_app. right. apply in_eq.
    + intros Hseed Hothers Hin. apply in_app_or in Hin. tauto.
Qed.

(** C4. A registered model without silo limit: its pass through the loop
    prints the warning that names its table and changes neither list.  Over
    the whole registry both lists are the ones the registry without the model
    would give, and the warning is on the console at the model's place. *)
Theorem classifier_skips_unassigned
        (model : Model) (l1 l2 : list Model) :
  get_models h = (l1 ++ model :: l2)%list ->
  silo_limit model = None ->
  (forall control_tables region_tables (w : World Output DockerState),
      classify_model (control_tables, region_tables) model w
      = ((control_tables, region_tables),
         log (Echo ("> Could not find silo assignment for " ++ db_table model)) w))
  /\
  (forall w : World Output DockerState,
      fst (table_lists h w)
      = ((control_tables_seed ++ tables_of CONTROL (l1 ++ l2))%list,
         (region_tables_seed ++ tables_of REGION (l1 ++ l2))%list)
      /\ trace (snd (table_lists h w))
         = (trace w ++ warnings l1
            ++ Echo ("> Could not find silo assignment for " ++ db_table model)
            :: warnings l2)%list).
Proof.
  intros Hreg Hsl. split.
  - intros ct rt w. unfold classify_model. now rewrite Hsl.
  - intros w. rewrite table_lists_eq, Hreg. cbn [fst snd trace].
    rewrite !tables_of_app, !tables_of_cons, warnings_app.
    unfold allows, warning. cbn [warnings flat_map]. rewrite Hsl.
    now split.
Qed.

End ClassifierClaims.

(** The organization mapping model of the demo registry is control only. *)
Lemma classifier_control_only_witness :
  In "sentry_organizationmapping"
     (fst (fst (table_lists
                  (Demo.host [Demo.user; Demo.organizationmapping; Demo.project;
                              Demo.contenttype])
                  Demo.world)))
  /\ ~ In "sentry_organizationmapping"
          (snd (fst (table_lists
                       (Demo.host [Demo.user; Demo.organizationmapping; Demo.project;
                                   Demo.contenttype])
                       Demo.world))).
Proof.
  pose proof (classifier_control_only
                (Demo.host [Demo.user; Demo.organizationmapping; Demo.project;
                            Demo.contenttype])
                Demo.organizationmapping {| modes := [CONTROL] |}
                [Demo.user] [Demo.project; Demo.contenttype]
                eq_refl eq_refl eq_refl eq_refl) as [_ H].
  destruct (H Demo.world) as (_ & Hin & Hout).
  split; [exact Hin|]. apply Hout.
  - cbn. intros [E|[E|[]]]; discriminate E.
  - cbn. intros [E|[]]; discriminate E.
Defined.

(** The content type model of the demo registry has no silo assignment. *)
Lemma classifier_skips_unassigned_witness :
  fst (table_lists
         (Demo.host [Demo.user; Demo.organizationmapping; Demo.project;
                     Demo.contenttype])
         Demo.world)
  = fst (table_lists
           (Demo.host [Demo.user; Demo.organizationmapping; Demo.project])
           Demo.world)
  /\ In (Echo "> Could not find silo assignment for django_content_type")
        (trace (snd (table_lists
                       (Demo.host [Demo.user; Demo.organizationmapping; Demo.project;
                                   Demo.contenttype])
                       Demo.world))).
Proof.
  pose proof (classifier_skips_unassigned
                (Demo.host [Demo.user; Demo.organizationmapping; Demo.project;
                            Demo.contenttype])
                Demo.contenttype
                [Demo.user; Demo.organizationmapping; Demo.project] []
                eq_refl eq_refl) as [_ H].
  destruct (H Demo.world) as [Hlists Htrace].
  split.
  - rewrite Hlists. reflexivity.
  - rewrite Htrace. cbn. left. reflexivity.
Defined.

(** C8 as the specification words it fails for a registry that holds the
    user model alone: its table [auth_user] is a seeded control table and the
    model allows CONTROL, so the control list names it twice. *)
Lemma control_tables_duplicate_auth_user :
  fst (fst (table_lists (Demo.host [Demo.user]) Demo.world))
  = (control_tables_seed ++ ["auth_user"])%list
  /\ ~ NoDup (fst (fst (table_lists (Demo.host [Demo.user]) Demo.world))).
Proof.
  split; [reflexivity|].
  intros H. rewrite (NoDup_count_occ string_dec) in H.
  specialize (H "auth_user"). vm_compute in H. lia.
Qed.

Section Deduplication.
Context {Output DockerState : Type} (h : Host Output DockerState).

Lemma NoDup_app_iff {A} (l1 l2 : list A) :
  NoDup (l1 ++ l2)
  <-> NoDup l1 /\ NoDup l2 /\ (forall a, In a l1 -> ~ In a l2).
Proof.
  split.
  - intros H. split; [now apply NoDup_app_remove_r in H|].
    split; [now apply NoDup_app_remove_l in H|].
    induction l1 as [|x l1 IH]; [intros a []|].
    cbn [app] in H. apply NoDup_cons_iff in H as [Hx Hrest].
    intros a [<-|Ha].
    + intros Hin. apply Hx, in_or_app. now right.
    + now apply IH.
  - intros (H1 & H2 & H). now apply NoDup_app.
Qed.

Lemma NoDup_control_tables_seed : NoDup control_tables_seed.
Proof.
  apply (NoDup_count_occ' string_dec). intros x Hin.
  unfold control_tables_seed in Hin. cbn [In] in Hin.
  repeat (destruct Hin as [<-|Hin]; [vm_compute; reflexivity|]).
  destruct Hin.
Qed.

Lemma NoDup_region_tables_seed : NoDup region_tables_seed.
Proof.
  apply (NoDup_count_occ' string_dec). intros x Hin.
  unfold region_tables_seed in Hin. cbn [In] in Hin.
  repeat (destruct Hin as [<-|Hin]; [vm_compute; reflexivity|]).
  destruct Hin.
Qed.

(** C8, amended.  Each list is the seeded framework tables followed, in
    registry order, by the table of every model that allows the list's mode;
    nothing is removed.  So a list is free of duplicates exactly when the
    tables of those models are pairwise distinct and none of them is a seeded
    table. *)
Theorem table_lists_duplicates (w : World Output DockerState) :
  let control_tables := fst (fst (table_lists h w)) in
  let region_tables := snd (fst (table_lists h w)) in
  control_tables = (control_tables_seed ++ tables_of CONTROL (get_models h))%list
  /\ region_tables = (region_tables_seed ++ tables_of REGION (get_models h))%list
  /\ (NoDup control_tables
      <-> NoDup (tables_of CONTROL (get_models h))
          /\ forall table, In table (tables_of CONTROL (get_models h)) ->
                           ~ In table control_tables_seed)
  /\ (NoDup region_tables
      <-> NoDup (tables_of REGION (get_models h))
          /\ forall table, In table (tables_of REGION (get_models h)) ->
                           ~ In table region_tables_seed).
Proof.
  cbv zeta. rewrite table_lists_eq. cbn [fst snd].
  split; [reflexivity|]. split; [reflexivity|].
  rewrite !NoDup_app_iff. split; split.
  - intros (_ & Hn & Hd). split; [exact Hn|]. intros t Ht Hs. exact (Hd t Hs Ht).
  - intros (Hn & Hd). split; [apply NoDup_control_tables_seed|].
    split; [exact Hn|]. intros t Hs Ht. exact (Hd t Ht Hs).
  - intros (_ & Hn & Hd). split; [exact Hn|]. intros t Ht Hs. exact (Hd t Hs Ht).
  - intros (Hn & Hd). split; [apply NoDup_region_tables_seed|].
    split; [exact Hn|]. intros t Hs Ht. exact (Hd t Ht Hs).
Qed.

End Deduplication.

(** A demo registry whose control tables are distinct and not seeded. *)
Lemma table_lists_duplicates_witness :
  NoDup (fst (fst (table_lists
                     (Demo.host [Demo.organizationmapping; Demo.project;
                                 Demo.contenttype])
                     Demo.world))).
Proof.
  apply (proj1 (proj2 (proj2 (table_lists_duplicates
                                (Demo.host [Demo.organizationmapping; Demo.project;
                                            Demo.contenttype])
                                Demo.world)))).
  split.
  - cbn. constructor; [intros [] | constructor].
  - cbn. intros table [<-|[]]. vm_compute. intuition discriminate.
Defined.

(** ** The driver and failed steps *)

Section Driver.
Context {Output DockerState : Type} (h : Host Output DockerState).

Local Abbreviation fmt := (format_output h).

Lemma runs_warnings (models : list Model) : runs fmt [] (warnings models).
Proof.
  induction models as [|model models IH]; [apply runs_nil|].
  unfold warnings. cbn [flat_map]. fold (@warnings Output models).
  destruct (silo_limit model); [exact IH|].
  apply (runs_app fmt [] [] [warning model]); [apply runs_echo | exact IH].
Qed.

Lemma emits_table_lists : emits (table_lists h) (runs fmt []).
Proof.
  intros w. rewrite table_lists_eq. cbn [snd trace].
  eexists. split; [reflexivity | apply runs_warnings].
Qed.

Lemma main_eq (database : string) (reset verbose : bool) (legacy : string)
      (w : World Output DockerState) :
  main h database reset verbose legacy w
  = split_database
      h (region_tables_seed ++ tables_of REGION (get_models h)) database "region"
      reset verbose
      (snd (split_database
              h (control_tables_seed ++ tables_of CONTROL (get_models h)) database
              "control" reset verbose
              (snd (revise_organization_mappings h legacy (snd (table_lists h w)))))).
Proof.
  unfold main. unfold bind at 1. rewrite table_lists_eq. cbn [snd].
  unfold bind.
  destruct (revise_organization_mappings h legacy _) as [[] w2]. cbn [snd].
  now destruct (split_database h _ database "control" reset verbose w2) as [[] w3].
Qed.

Lemma emits_main (database : string) (reset verbose : bool) (legacy : string) :
  emits (main h database reset verbose legacy)
        (runs fmt (main_actions h database reset legacy)).
Proof.
  intros w. rewrite main_eq.
  destruct (emits_table_lists w) as (d0 & E0 & R0).
  set (w1 := snd (table_lists h w)) in *.
  destruct (emits_revise h legacy w1) as (d1 & E1 & R1).
  set (w2 := snd (revise_organization_mappings h legacy w1)) in *.
  destruct (emits_split_database
              h (control_tables_seed ++ tables_of CONTROL (get_models h)) database
              "control" reset verbose w2) as (d2 & E2 & R2).
  set (w3 := snd (split_database h _ database "control" reset verbose w2)) in *.
  destruct (emits_split_database
              h (region_tables_seed ++ tables_of REGION (get_models h)) database
              "region" reset verbose w3) as (d3 & E3 & R3).
  exists (d0 ++ d1 ++ d2 ++ d3)%list. split.
  - rewrite E3, E2, E1, E0. now rewrite <- !app_assoc.
  - apply (runs_app fmt [] _ d0); [exact R0|].
    unfold main_actions. now repeat apply runs_app.
Qed.

(** C7. [main] is this sequence and no other: the loop builds both lists,
    each the seeded framework tables followed by the tables of the models
    that allow its mode; then the organization mappings are revised; then
    [split_database] runs on the control list with destination [control];
    then on the region list with destination [region].  The source of both
    dumps is the database given on the command line; the destinations do not
    depend on any argument. *)
Theorem main_sequence (database : string) (reset verbose : bool) (legacy : string)
        (w : World Output DockerState) :
  let control_tables := (control_tables_seed ++ tables_of CONTROL (get_models h))%list in
  let region_tables := (region_tables_seed ++ tables_of REGION (get_models h))%list in
  exists w1 w2 w3 : World Output DockerState,
    table_lists h w = ((control_tables, region_tables), w1)
    /\ revise_organization_mappings h legacy w1 = (tt, w2)
    /\ split_database h control_tables database "control" reset verbose w2 = (tt, w3)
    /\ main h database reset verbose legacy w
       = split_database h region_tables database "region" reset verbose w3
    /\ exists delta,
        trace (snd (main h database reset verbose legacy w))
        = (trace w ++ warnings (get_models h) ++ delta)%list
        /\ actions delta
           = ((if SENTRY_MONOLITH_REGION h =? legacy then []
               else [Rewrite legacy (SENTRY_MONOLITH_REGION h)])
              ++ split_database_actions (postgres_container h) control_tables
                                        database "control" reset
              ++ split_database_actions (postgres_container h) region_tables
                                        database "region" reset)%list.
Proof.
  cbv zeta.
  exists (snd (table_lists h w)).
  exists (snd (revise_organization_mappings h legacy (snd (table_lists h w)))).
  exists (snd (split_database
                 h (control_tables_seed ++ tables_of CONTROL (get_models h)) database
                 "control" reset verbose
                 (snd (revise_organization_mappings h legacy (snd (table_lists h w)))))).
  split; [rewrite table_lists_eq; reflexivity|].
  split; [now destruct (revise_organization_mappings h legacy _) as [[] ?]|].
  split;
    [now destruct (split_database h _ database "control" reset verbose _) as [[] ?]|].
  split; [apply main_eq|].
  rewrite main_eq.
  set (w1 := snd (table_lists h w)).
  assert (E0 : trace w1 = (trace w ++ warnings (get_models h))%list)
    by (unfold w1; now rewrite table_lists_eq).
  destruct (emits_revise h legacy w1) as (d1 & E1 & R1 & _).
  set (w2 := snd (revise_organization_mappings h legacy w1)) in *.
  destruct (emits_split_database
              h (control_tables_seed ++ tables_of CONTROL (get_models h)) database
              "control" reset verbose w2) as (d2 & E2 & R2 & _).
  set (w3 := snd (split_database h _ database "control" reset verbose w2)) in *.
  destruct (emits_split_database
              h (region_tables_seed ++ tables_of REGION (get_models h)) database
              "region" reset verbose w3) as (d3 & E3 & R3 & _).
  exists (d1 ++ d2 ++ d3)%list. split.
  - rewrite E3, E2, E1, E0. now rewrite <- !app_assoc.
  - now rewrite !actions_app, R1, R2, R3.
Qed.

(** C5. A container exec that ends with a non-zero exit code makes
    [exec_run] print the failure line and the line with the captured output,
    and [exec_run] still returns.  Whatever exit codes the container gives,
    a call of [split_database] and a whole run of [main] perform every one of
    their steps once and in program order, none skipped and none repeated, and
    every failed exec in their trace is followed at once by its two report
    lines. *)
Theorem failed_exec_is_reported_and_skipped_over :
  (forall (container : string) (command : list string) (w : World Output DockerState)
          (exit_code : Z) (output : Output) (d : DockerState),
      container_exec_run h (docker w) container (wrapped_command command)
      = ((exit_code, output), d) ->
      exit_code <> 0%Z ->
      exec_run h container command w
      = (output,
         {| mappings := mappings w;
            docker := d;
            trace :=
              (trace w
               ++ [Exec container (wrapped_command command) exit_code output;
                   Echo "Container operation Failed!";
                   Echo ("Container operation failed with " ++ format_output h output)])%list
         |}))
  /\
  (forall (tables : list string) (source destination : string) (reset verbose : bool)
          (w : World Output DockerState),
      exists delta,
        trace (snd (split_database h tables source destination reset verbose w))
        = (trace w ++ delta)%list
        /\ actions delta
           = map (fun command => Run (postgres_container h) (wrapped_command command))
                 (split_database_steps tables source destination reset)
        /\ failures_reported (format_output h) delta = true)
  /\
  (forall (database : string) (reset verbose : bool) (legacy : string)
          (w : World Output DockerState),
      exists delta,
        trace (snd (main h database reset verbose legacy w)) = (trace w ++ delta)%list
        /\ actions delta = main_actions h database reset legacy
        /\ failures_reported (format_output h) delta = true).
Proof.
  split; [|split].
  - intros container command w exit_code output d E Hcode.
    rewrite (exec_run_eq h _ _ _ _ _ _ E).
    apply Z.eqb_neq in Hcode. now rewrite Hcode.
  - intros. apply emits_split_database.
  - intros. apply emits_main.
Qed.

End Driver.

(** The demo daemon fails every exec but its first. *)
Lemma failed_exec_is_reported_and_skipped_over_witness :
  trace (snd (exec_run (Demo.host []) "sentry-postgres-1"
                       ["createdb"; "-U"; "postgres"; "control"]
                       {| mappings := []; docker := 1; trace := [] |}))
  = [Exec "sentry-postgres-1"
          (wrapped_command ["createdb"; "-U"; "postgres"; "control"]) 1 "psql: FATAL";
     Echo "Container operation Failed!";
     Echo "Container operation failed with psql: FATAL"].
Proof.
  rewrite (proj1 (failed_exec_is_reported_and_skipped_over (Demo.host []))
                 "sentry-postgres-1" ["createdb"; "-U"; "postgres"; "control"]
                 {| mappings := []; docker := 1; trace := [] |}
                 1%Z "psql: FATAL" 2 eq_refl ltac:(discriminate)).
  reflexivity.
Defined.

(** ** What [exec_run] hands back *)

Section ReturnValue.
Context {Output DockerState : Type} (h : Host Output DockerState).
Variable code : DockerState -> string -> string -> Z.

Local Abbreviation h' := (with_exit_codes code h).
Local Abbreviation M := (M Output DockerState).

Lemma same_effects_refl (w : World Output DockerState) : same_effects w w.
Proof. now repeat split. Qed.

Lemma same_effects_log_echo (l1 l2 : string) (w1 w2 : World Output DockerState) :
  same_effects w1 w2 -> same_effects (log (Echo l1) w1) (log (Echo l2) w2).
Proof.
  intros (Hm & Hd & Ha). repeat split; cbn [log mappings docker trace]; auto.
  rewrite !actions_app, Ha. reflexivity.
Qed.

Lemma in_step_ret {A} (a : A) : in_step (ret a : M A) (ret a).
Proof. intros w1 w2 H. now split. Qed.

Lemma in_step_bind {A B} (m1 m2 : M A) (k1 k2 : A -> M B) :
  in_step m1 m2 -> (forall x, in_step (k1 x) (k2 x)) ->
  in_step (bind m1 k1) (bind m2 k2).
Proof.
  intros Hm Hk w1 w2 H. unfold bind.
  destruct (Hm w1 w2 H) as [E H'].
  destruct (m1 w1) as [x1 w1'], (m2 w2) as [x2 w2']. cbn [fst snd] in E, H'.
  subst x2. now apply Hk.
Qed.

Lemma in_step_echo (line : string) : in_step (click_echo line : M unit) (click_echo line).
Proof. intros w1 w2 H. split; [reflexivity | now apply same_effects_log_echo]. Qed.

Lemma in_step_when (b : bool) (m1 m2 : M unit) :
  in_step m1 m2 -> in_step (when b m1) (when b m2).
Proof. intros H. destruct b; [exact H | apply in_step_ret]. Qed.

Lemma actions_failure_report (b : bool) (output : Output) :
  actions (if b then [] else failure_report (format_output h) output) = [].
Proof. now destruct b. Qed.

(** The return value of [exec_run] is the captured output, whatever the exit
    code. *)
Lemma exec_run_fst (container : string) (command : list string)
      (w : World Output DockerState) :
  fst (exec_run h container command w)
  = snd (fst (container_exec_run h (docker w) container (wrapped_command command))).
Proof.
  destruct (container_exec_run h (docker w) container (wrapped_command command))
    as [[exit_code output] d] eqn:E.
  now rewrite (exec_run_eq h _ _ _ _ _ _ E).
Qed.

Lemma in_step_exec_run (container : string) (command : list string) :
  in_step (exec_run h' container command) (exec_run h container command).
Proof.
  intros w1 w2 (Hm & Hd & Ha).
  destruct (container_exec_run h (docker w2) container (wrapped_command command))
    as [[exit_code output] d] eqn:E.
  assert (E' : container_exec_run h' (docker w1) container (wrapped_command command)
               = ((code (docker w1) container (wrapped_command command), output), d)).
  { cbn [with_exit_codes container_exec_run]. now rewrite Hd, E. }
  rewrite (exec_run_eq h _ _ _ _ _ _ E), (exec_run_eq h' _ _ _ _ _ _ E').
  cbn [fst snd]. split; [reflexivity|].
  repeat split; cbn [mappings docker trace]; auto.
  rewrite !actions_app, Ha. f_equal.
  change (?e :: ?t) with ([e] ++ t)%list. rewrite !actions_app.
  cbn [with_exit_codes format_output]. now rewrite !actions_failure_report.
Qed.

Lemma in_step_split_database (tables : list string) (source destination : string)
      (reset verbose : bool) :
  in_step (split_database h' tables source destination reset verbose)
          (split_database h tables source destination reset verbose).
Proof.
  unfold split_database.
  change (postgres_container h') with (postgres_container h).
  repeat first
         [ apply in_step_ret
         | apply in_step_echo
         | apply in_step_exec_run
         | apply in_step_when
         | apply in_step_bind; [| intros _] ].
Qed.

(** C10. [exec_run] returns the captured output of the exec and nothing
    else, with a zero and with a non-zero exit code alike: under any other
    assignment of exit codes to the same execs it returns the same value.  A
    call of [split_database] therefore behaves the same under both, apart
    from the console: same result, same mapping table, same daemon state,
    same commands in the same order. *)
Theorem exec_run_returns_output_only
        (container : string) (command : list string) (w : World Output DockerState) :
  fst (exec_run h container command w)
  = snd (fst (container_exec_run h (docker w) container (wrapped_command command)))
  /\ fst (exec_run (with_exit_codes code h) container command w)
     = fst (exec_run h container command w)
  /\ forall (tables : list string) (source destination : string) (reset verbose : bool),
      let r' := split_database (with_exit_codes code h) tables source destination
                               reset verbose w in
      let r := split_database h tables source destination reset verbose w in
      fst r' = fst r
      /\ mappings (snd r') = mappings (snd r)
      /\ docker (snd r') = docker (snd r)
      /\ actions (trace (snd r')) = actions (trace (snd r)).
Proof.
  split; [apply exec_run_fst|]. split.
  - apply (in_step_exec_run container command w w (same_effects_refl w)).
  - intros tables source destination reset verbose. cbv zeta.
    apply (in_step_split_database tables source destination reset verbose w w
                                  (same_effects_refl w)).
Qed.

End ReturnValue.

(** * Further properties of the script *)

(** ** What a command leaves alone *)

Section Frames.
Context {Output DockerState : Type} (h : Host Output DockerState).
Context {X : Type} (f : World Output DockerState -> X).

Local Abbreviation M := (M Output DockerState).




End Frames.

Section MappingFrame.
Context {Output DockerState : Type} (h : Host Output DockerState).

Local Abbreviation M := (M Output DockerState).






Lemma revise_mappings (legacy : string) (w : World Output DockerState) :
  mappings (snd (revise_organization_mappings h legacy w))
  = if SENTRY_MONOLITH_REGION h =? legacy then mappings w
    else map (fun r => if has_region legacy r
                       then set_region_name (SENTRY_MONOLITH_REGION h) r else r)
             (mappings w).
Proof.
  destruct (String.eqb_spec (SENTRY_MONOLITH_REGION h) legacy) as [E|E].
  - now rewrite (revise_same h _ _ E).
  - now rewrite (revise_other h _ _ E).
Qed.


End MappingFrame.


(** ** More on the mapping rewriter *)

Section RewriterMore.
Context {Output DockerState : Type} (h : Host Output DockerState).

Lemma rewrite_nothing (legacy new : string) (rows : list OrganizationMapping) :
  rows_in legacy rows = 0 ->
  map (fun r => if has_region legacy r then set_region_name new r else r) rows = rows.
Proof.
  unfold rows_in. induction rows as [|r rows IH]; [reflexivity|].
  cbn [map count_occ]. unfold has_region at 1.
  destruct (string_dec (region_name r) legacy) as [E|E]; [discriminate|].
  intros H0. apply String.eqb_neq in E. rewrite E. now rewrite IH.
Qed.

Lemma rows_in_rewritten (legacy new region : string) (rows : list OrganizationMapping) :
  new <> legacy ->
  rows_in region
          (map (fun r => if has_region legacy r then set_region_name new r else r) rows)
  = if region =? legacy then 0
    else if region =? new then rows_in new rows + rows_in legacy rows
         else rows_in region rows.
Proof.
  intros Hne. unfold rows_in.
  induction rows as [|r rows IH].
  - cbn. now destruct (region =? legacy), (region =? new).
  - cbn [map count_occ]. rewrite IH. clear IH. unfold has_region.
    destruct (String.eqb_spec (region_name r) legacy) as [Er|Er];
      cbn [set_region_name region_name];
      destruct (String.eqb_spec region legacy) as [E1|E1];
      destruct (String.eqb_spec region new) as [E2|E2];
      repeat match goal with
             | |- context [string_dec ?a ?b] => destruct (string_dec a b)
             end;
      subst; try congruence; lia.
Qed.

(** X3. When no row carries the legacy name and the configured region is
    another name, [revise_organization_mappings] still sends its UPDATE and
    reports 0, and the table stays as it is.  That is the state the first run
    leaves, so a second run with the same legacy name changes nothing. *)
Theorem revise_organization_mappings_again
        (l : string) (w : World Output DockerState) :
  SENTRY_MONOLITH_REGION h <> l ->
  (rows_in l (mappings w) = 0 ->
   revise_organization_mappings h l w
   = (tt,
      {| mappings := mappings w;
         docker := docker w;
         trace :=
           (trace w
            ++ [Update l (SENTRY_MONOLITH_REGION h);
                Echo ("> 0 OrganizationMapping record(s) have been updated from '"
                      ++ l ++ "' to '" ++ SENTRY_MONOLITH_REGION h ++ "'")])%list |}))
  /\ rows_in l (mappings (snd (revise_organization_mappings h l w))) = 0
  /\ mappings (snd (revise_organization_mappings
                      h l (snd (revise_organization_mappings h l w))))
     = mappings (snd (revise_organization_mappings h l w)).
Proof.
  intros Hne.
  assert (Hzero : forall w0 : World Output DockerState,
             rows_in l (mappings (snd (revise_organization_mappings h l w0))) = 0).
  { intros w0. rewrite (revise_other h _ _ Hne). cbn [snd mappings].
    rewrite rows_in_rewritten by exact Hne. now rewrite String.eqb_refl. }
  split; [|split].
  - intros H0. rewrite (revise_other h _ _ Hne).
    rewrite rewrite_nothing by exact H0.
    rewrite (filter_has_region_length l). fold (rows_in l (mappings w)).
    now rewrite H0.
  - apply Hzero.
  - rewrite (revise_other h _ (snd _) Hne). cbn [snd mappings].
    apply rewrite_nothing, Hzero.
Qed.

(** X4. [revise_organization_mappings] keeps the rows of the table in place:
    the primary keys and the other columns are, row by row, what they were.
    With a configured region other than the legacy name, the rows that
    carried the legacy name are afterwards counted under the configured
    region, and the count of every other region is what it was. *)
Theorem revise_organization_mappings_conserves
        (l : string) (w : World Output DockerState) :
  let new := SENTRY_MONOLITH_REGION h in
  let w' := snd (revise_organization_mappings h l w) in
  map pk (mappings w') = map pk (mappings w)
  /\ map columns (mappings w') = map columns (mappings w)
  /\ (new <> l ->
      rows_in new (mappings w') = rows_in new (mappings w) + rows_in l (mappings w)
      /\ forall region, region <> l -> region <> new ->
                        rows_in region (mappings w') = rows_in region (mappings w)).
Proof.
  cbv zeta. rewrite revise_mappings.
  split; [|split].
  - destruct (_ =? l); [reflexivity|]. rewrite map_map. apply map_ext.
    intros r. now destruct (has_region l r).
  - destruct (_ =? l); [reflexivity|]. rewrite map_map. apply map_ext.
    intros r. now destruct (has_region l r).
  - intros Hne. pose proof Hne as Hb. apply String.eqb_neq in Hb. rewrite Hb.
    split.
    + rewrite rows_in_rewritten by exact Hne. rewrite Hb. now rewrite String.eqb_refl.
    + intros region H1 H2. rewrite rows_in_rewritten by exact Hne.
      apply String.eqb_neq in H1, H2. now rewrite H1, H2.
Qed.

End RewriterMore.

(** On the demo table: after one run for [--monolith--] a second run finds
    nothing to rewrite. *)
Lemma revise_organization_mappings_again_witness :
  mappings (snd (revise_organization_mappings
                   (Demo.host []) "--monolith--"
                   (snd (revise_organization_mappings (Demo.host []) "--monolith--"
                                                      Demo.world))))
  = mappings (snd (revise_organization_mappings (Demo.host []) "--monolith--"
                                                Demo.world)).
Proof.
  apply (revise_organization_mappings_again (Demo.host []) "--monolith--" Demo.world).
  discriminate.
Defined.

(** On the demo table the two [--monolith--] rows join no [us] row. *)
Lemma revise_organization_mappings_conserves_witness :
  rows_in "us" (mappings (snd (revise_organization_mappings
                                 (Demo.host []) "--monolith--" Demo.world)))
  = 0 + 2.
Proof.
  apply (proj2 (proj2 (revise_organization_mappings_conserves
                         (Demo.host []) "--monolith--" Demo.world))).
  discriminate.
Defined.

(** ** Console and database side by side *)

(** Trace properties that hold of the empty trace and of a concatenation
    whenever they hold of both parts can be established command by command. *)
Section Additive.
Context {Output DockerState : Type} (h : Host Output DockerState).
Variable P : list (event Output) -> Prop.
Hypothesis P_nil : P [].
Hypothesis P_app : forall d1 d2, P d1 -> P d2 -> P (d1 ++ d2)%list.

Local Abbreviation M := (M Output DockerState).

Lemma emits_ret_additive {A} (a : A) : emits (ret a : M A) P.
Proof. intros w. exists []. cbn. now rewrite app_nil_r. Qed.

Lemma emits_bind_additive {A B} (m : M A) (k : A -> M B) :
  emits m P -> (forall x, emits (k x) P) -> emits (bind m k) P.
Proof.
  intros Hm Hk w. unfold bind.
  destruct (Hm w) as (d1 & E1 & P1).
  destruct (m w) as [x w1]. cbn [snd] in E1.
  destruct (Hk x w1) as (d2 & E2 & P2).
  exists (d1 ++ d2)%list. split; [|now apply P_app].
  rewrite E2, E1. now rewrite app_assoc.
Qed.

Lemma emits_when_additive (b : bool) (m : M unit) :
  emits m P -> emits (when b m) P.
Proof. intros Hm. destruct b; [exact Hm | apply emits_ret_additive]. Qed.

Lemma emits_echo_additive (line : string) :
  P [Echo line] -> emits (click_echo line : M unit) P.
Proof. intros HP w. exists [Echo line]. now split. Qed.

Lemma emits_main_additive (database : string) (reset verbose : bool) (legacy : string) :
  emits (table_lists h) P ->
  emits (revise_organization_mappings h legacy) P ->
  (forall tables destination,
      emits (split_database h tables database destination reset verbose) P) ->
  emits (main h database reset verbose legacy) P.
Proof.
  intros Ht Hr Hs. unfold main.
  apply emits_bind_additive; [exact Ht|]. intros [control_tables region_tables].
  apply emits_bind_additive; [exact Hr|]. intros _.
  apply emits_bind_additive; [apply Hs|]. intros _. apply Hs.
Qed.

End Additive.

Section Tally.
Context {Output DockerState : Type} (h : Host Output DockerState).

Lemma tallies_nil : tallies (@nil (event Output)).
Proof. reflexivity. Qed.

Lemma tallies_app (d1 d2 : list (event Output)) :
  tallies d1 -> tallies d2 -> tallies (d1 ++ d2).
Proof.
  unfold tallies, failure_lines, failed_execs. intros H1 H2.
  rewrite !filter_app, !length_app. now rewrite H1, H2.
Qed.

Lemma tallies_echo (line : string) :
  (line =? failure_line) = false -> tallies [@Echo Output line].
Proof.
  intros H. unfold tallies, failure_lines, failed_execs. cbn [filter]. now rewrite H.
Qed.

Lemma emits_exec_run_tallies (container : string) (command : list string) :
  emits (exec_run h container command) tallies.
Proof.
  intros w.
  destruct (container_exec_run h (docker w) container (wrapped_command command))
    as [[exit_code output] d] eqn:E.
  rewrite (exec_run_eq h _ _ _ _ _ _ E). cbn [snd trace].
  eexists. split; [reflexivity|].
  unfold tallies, failure_lines, failed_execs. cbn [filter].
  destruct (exit_code =? 0)%Z; reflexivity.
Qed.

Lemma emits_split_database_tallies
      (tables : list string) (source destination : string) (reset verbose : bool) :
  emits (split_database h tables source destination reset verbose) tallies.
Proof.
  unfold split_database.
  repeat first
         [ apply (emits_ret_additive tallies tallies_nil)
         | apply emits_exec_run_tallies
         | apply (emits_echo_additive tallies), tallies_echo; reflexivity
         | apply (emits_when_additive tallies tallies_nil)
         | apply (emits_bind_additive tallies tallies_app); [| intros _] ].
Qed.

Lemma emits_table_lists_tallies : emits (table_lists h) tallies.
Proof.
  intros w. rewrite table_lists_eq. cbn [snd trace].
  eexists. split; [reflexivity|].
  induction (get_models h) as [|model models IH]; [reflexivity|].
  unfold warnings. cbn [flat_map]. fold (@warnings Output models).
  destruct (silo_limit model); [exact IH|].
  apply (tallies_app [warning model]); [|exact IH].
  now apply tallies_echo.
Qed.

Lemma emits_revise_tallies (legacy : string) :
  emits (revise_organization_mappings h legacy) tallies.
Proof.
  intros w. destruct (String.eqb_spec (SENTRY_MONOLITH_REGION h) legacy) as [E|E].
  - rewrite (revise_same h _ _ E). eexists. split; [reflexivity|].
    now apply tallies_echo.
  - rewrite (revise_other h _ _ E). eexists. split; [reflexivity|].
    reflexivity.
Qed.

(** X5. On the console of a [split_database] call and of a whole run of [main] the
    line [Container operation Failed!] appears as many times as execs ended
    with a non-zero exit code: no other message of the script reads like it,
    so a run whose execs all end with exit code 0 prints no failure line. *)
Theorem failure_lines_count_failed_execs :
  (forall (tables : list string) (source destination : string) (reset verbose : bool)
          (w : World Output DockerState),
      exists delta,
        trace (snd (split_database h tables source destination reset verbose w))
        = (trace w ++ delta)%list
        /\ failure_lines delta = failed_execs delta)
  /\
  (forall (database : string) (reset verbose : bool) (legacy : string)
          (w : World Output DockerState),
      exists delta,
        trace (snd (main h database reset verbose legacy w)) = (trace w ++ delta)%list
        /\ failure_lines delta = failed_execs delta).
Proof.
  split.
  - intros. apply emits_split_database_tallies.
  - intros database reset verbose legacy w.
    destruct (emits_main_additive h tallies tallies_app
                                  database reset verbose legacy
                                  emits_table_lists_tallies
                                  (emits_revise_tallies legacy)
                                  (fun tables destination =>
                                     emits_split_database_tallies
                                       tables database destination reset verbose) w)
      as (delta & E & T).
    exists delta. now split.
Qed.

End Tally.

(** ** What [--verbose] changes *)

Section Verbose.
Context {Output DockerState : Type} (h : Host Output DockerState).

Local Abbreviation M := (M Output DockerState).

Lemma in_step_optional_echo (b1 b2 : bool) (l1 l2 : string) :
  in_step (when b1 (click_echo l1) : M unit) (when b2 (click_echo l2)).
Proof.
  intros w1 w2 (Hm & Hd & Ha).
  destruct b1, b2; (split; [reflexivity|]);
    repeat split; cbn [when click_echo ret log snd mappings docker trace]; auto;
    rewrite ?actions_app, Ha; cbn [actions flat_map app];
    now rewrite ?app_nil_r.
Qed.

Lemma in_step_exec_run_same (container : string) (command : list string) :
  in_step (exec_run h container command) (exec_run h container command).
Proof.
  intros w1 w2 (Hm & Hd & Ha).
  destruct (container_exec_run h (docker w2) container (wrapped_command command))
    as [[exit_code output] d] eqn:E.
  assert (E' : container_exec_run h (docker w1) container (wrapped_command command)
               = ((exit_code, output), d)) by now rewrite Hd.
  rewrite (exec_run_eq h _ _ _ _ _ _ E), (exec_run_eq h _ _ _ _ _ _ E').
  cbn [fst snd]. split; [reflexivity|].
  repeat split; cbn [mappings docker trace]; auto.
  now rewrite !actions_app, Ha.
Qed.

Lemma in_step_split_database_verbose
      (tables : list string) (source destination : string) (reset v1 v2 : bool) :
  in_step (split_database h tables source destination reset v1)
          (split_database h tables source destination reset v2).
Proof.
  unfold split_database.
  repeat first
         [ apply in_step_ret
         | apply in_step_echo
         | apply in_step_exec_run_same
         | apply in_step_optional_echo
         | apply in_step_when
         | apply in_step_bind; [| intros _] ].
Qed.

Lemma in_step_table_lists : in_step (table_lists h) (table_lists h).
Proof.
  intros w1 w2 (Hm & Hd & Ha). rewrite !table_lists_eq. cbn [fst snd].
  split; [reflexivity|].
  repeat split; cbn [mappings docker trace]; auto.
  now rewrite !actions_app, Ha.
Qed.

Lemma in_step_revise (legacy : string) :
  in_step (revise_organization_mappings h legacy)
          (revise_organization_mappings h legacy).
Proof.
  intros w1 w2 (Hm & Hd & Ha).
  destruct (String.eqb_spec (SENTRY_MONOLITH_REGION h) legacy) as [E|E].
  - rewrite !(revise_same h _ _ E). split; [reflexivity|].
    now apply same_effects_log_echo.
  - rewrite !(revise_other h _ _ E). cbn [fst snd]. split; [reflexivity|].
    repeat split; cbn [mappings docker trace]; auto.
    + now rewrite Hm.
    + now rewrite !actions_app, Ha.
Qed.

(** X6. [--verbose] changes the console and nothing else: with and without
    it a [split_database] call and a whole run of [main] leave the same
    mapping table and the same daemon state, and perform the same database
    actions in the same order. *)
Theorem verbose_changes_console_only (w : World Output DockerState) :
  (forall (tables : list string) (source destination : string) (reset : bool),
      same_effects (snd (split_database h tables source destination reset true w))
                   (snd (split_database h tables source destination reset false w)))
  /\
  (forall (database : string) (reset : bool) (legacy : string),
      same_effects (snd (main h database reset true legacy w))
                   (snd (main h database reset false legacy w))).
Proof.
  split.
  - intros. apply in_step_split_database_verbose, same_effects_refl.
  - intros database reset legacy.
    assert (Hmain : in_step (main h database reset true legacy)
                            (main h database reset false legacy)).
    { unfold main.
      apply in_step_bind; [apply in_step_table_lists|].
      intros [control_tables region_tables].
      apply in_step_bind; [apply in_step_revise | intros _].
      apply in_step_bind; [apply in_step_split_database_verbose | intros _].
      apply in_step_split_database_verbose. }
    apply Hmain, same_effects_refl.
Qed.

End Verbose.

(** ** Containers, files and words *)

Section Strings.

Lemma append_assoc (a b c : string) : ((a ++ b) ++ c = a ++ (b ++ c))%string.
Proof. induction a as [|x a IH]; cbn; [reflexivity | now rewrite IH]. Qed.

Lemma list_ascii_of_append (a b : string) :
  list_ascii_of_string (a ++ b)
  = (list_ascii_of_string a ++ list_ascii_of_string b)%list.
Proof. induction a as [|x a IH]; cbn; [reflexivity | now rewrite IH]. Qed.

Lemma append_cancel_r (a b c : string) : (a ++ c = b ++ c)%string -> a = b.
Proof.
  intros H. apply (f_equal list_ascii_of_string) in H.
  rewrite !list_ascii_of_append in H. apply app_inv_tail in H.
  apply (f_equal string_of_list_ascii) in H.
  now rewrite !string_of_list_ascii_of_string in H.
Qed.

Lemma join_cons (word : string) (next : string) (rest : list string) :
  join (word :: next :: rest) = (word ++ " " ++ join (next :: rest))%string.
Proof. reflexivity. Qed.

End Strings.

Section Container.
Context {Output DockerState : Type} (h : Host Output DockerState).

Lemma in_actions_exec (container cmd : string) (exit_code : Z) (output : Output)
      (tr : list (event Output)) :
  In (Exec container cmd exit_code output) tr -> In (Run container cmd) (actions tr).
Proof.
  intros Hin. unfold actions. apply in_flat_map.
  exists (Exec container cmd exit_code output). split; [exact Hin | now left].
Qed.

Lemma split_database_actions_container
      (name : string) (tables : list string) (source destination : string)
      (reset : bool) (container cmd : string) :
  In (Run container cmd) (split_database_actions name tables source destination reset) ->
  container = name.
Proof.
  unfold split_database_actions. intros Hin. apply in_map_iff in Hin.
  destruct Hin as (command & E & _). now inversion E.
Qed.

(** X7. Every exec of a whole run of [main] goes to one and the same
    container.  It is [sentry_postgres] exactly when the environment variable
    USE_OLD_DEVSERVICES is set to [1], and [sentry-postgres-1] in every
    other case, the variable unset included. *)
Theorem main_uses_one_container :
  (postgres_container h = "sentry_postgres" <-> USE_OLD_DEVSERVICES h = Some "1")
  /\ (postgres_container h = "sentry-postgres-1"
      <-> USE_OLD_DEVSERVICES h <> Some "1")
  /\ forall (database : string) (reset verbose : bool) (legacy : string)
            (w : World Output DockerState),
      exists delta,
        trace (snd (main h database reset verbose legacy w)) = (trace w ++ delta)%list
        /\ forall container cmd exit_code output,
            In (Exec container cmd exit_code output) delta ->
            container = postgres_container h.
Proof.
  split; [|split].
  - unfold postgres_container. destruct (USE_OLD_DEVSERVICES h) as [v|].
    + destruct (String.eqb_spec v "1") as [->|Hv]; split; try discriminate; auto.
      intros E. inversion E. contradiction.
    + split; discriminate.
  - unfold postgres_container. destruct (USE_OLD_DEVSERVICES h) as [v|].
    + destruct (String.eqb_spec v "1") as [->|Hv]; split; try discriminate; auto.
      * intros H. now contradiction H.
      * intros _ E. inversion E. contradiction.
    + split; [discriminate | reflexivity].
  - intros database reset verbose legacy w.
    destruct (emits_main h database reset verbose legacy w) as (delta & E & A & _).
    exists delta. split; [exact E|].
    intros container cmd exit_code output Hin.
    apply in_actions_exec in Hin. rewrite A in Hin. unfold main_actions in Hin.
    apply in_app_or in Hin. destruct Hin as [Hin|Hin].
    + destruct (_ =? legacy); [destruct Hin|].
      destruct Hin as [Hin|[]]. discriminate Hin.
    + apply in_app_or in Hin.
      destruct Hin as [Hin|Hin];
        now apply split_database_actions_container in Hin.
Qed.

(** X8. Two destinations share a dump file only if they are the same
    destination; the dumps of [control] and of [region] go to two files, so
    the second split of a run does not overwrite the dump of the first. *)
Theorem dump_file_injective (d1 d2 : string) :
  dump_file d1 = dump_file d2 -> d1 = d2.
Proof.
  unfold dump_file. intros H. cbn in H.
  inversion H as [H']. now apply append_cancel_r in H'.
Qed.

(** X9. [exec_run] joins the words of a command with single spaces and
    quotes none of them: a word that holds a space gives the same shell
    command line, and so the same exec and the same trace, as the two words
    on either side of that space. *)
Theorem exec_run_does_not_quote
        (container : string) (before after : list string) (a b : string)
        (w : World Output DockerState) :
  wrapped_command (before ++ (a ++ " " ++ b)%string :: after)
  = wrapped_command (before ++ a :: b :: after)
  /\ exec_run h container (before ++ (a ++ " " ++ b)%string :: after) w
     = exec_run h container (before ++ a :: b :: after) w.
Proof.
  assert (J : join (before ++ (a ++ " " ++ b)%string :: after)
              = join (before ++ a :: b :: after)).
  { induction before as [|word before IH].
    - cbn [app]. destruct after as [|next after].
      + reflexivity.
      + rewrite !join_cons. now rewrite !append_assoc.
    - destruct before as [|word' before].
      + cbn [app] in *. rewrite !join_cons. now rewrite IH.
      + cbn [app] in *. rewrite (join_cons word), (join_cons word word').
        now rewrite IH. }
  assert (W : wrapped_command (before ++ (a ++ " " ++ b)%string :: after)
              = wrapped_command (before ++ a :: b :: after))
    by (unfold wrapped_command; now rewrite J).
  split; [exact W|].
  unfold exec_run, bind, docker_exec. now rewrite W.
Qed.

End Container.

(** The two dump files of a run. *)
Lemma dump_file_injective_witness : "control" = "control".
Proof. apply dump_file_injective. reflexivity. Defined.

(** ** More on the classifier *)

Section ClassifierMore.
Context {Output DockerState : Type} (h : Host Output DockerState).

Lemma in_tables_of (mode : SiloMode) (models : list Model) (table : string) :
  In table (tables_of mode models)
  <-> exists model sl,
      In model models /\ silo_limit model = Some sl
      /\ mode_in mode sl = true /\ db_table model = table.
Proof.
  unfold tables_of. rewrite in_map_iff. split.
  - intros (model & Et & Hf). apply filter_In in Hf as [Hin Ha].
    unfold allows in Ha. destruct (silo_limit model) as [sl|] eqn:Es; [|discriminate].
    now exists model, sl.
  - intros (model & sl & Hin & Es & Hm & Et). exists model. split; [exact Et|].
    apply filter_In. split; [exact Hin|]. unfold allows. now rewrite Es.
Qed.

(** X10. A table is in the control list exactly when it is a seeded control
    table or the table of some registered model whose limit allows CONTROL,
    and in the region list exactly when it is a seeded region table or the
    table of some registered model whose limit allows REGION; a model that
    allows both modes puts its table in both lists. *)
Theorem table_lists_membership (w : World Output DockerState) (table : string) :
  (In table (fst (fst (table_lists h w)))
   <-> In table control_tables_seed
       \/ exists model sl,
         In model (get_models h) /\ silo_limit model = Some sl
         /\ mode_in CONTROL sl = true /\ db_table model = table)
  /\
  (In table (snd (fst (table_lists h w)))
   <-> In table region_tables_seed
       \/ exists model sl,
         In model (get_models h) /\ silo_limit model = Some sl
         /\ mode_in REGION sl = true /\ db_table model = table).
Proof.
  rewrite table_lists_eq. cbn [fst snd].
  split; rewrite in_app_iff, in_tables_of; reflexivity.
Qed.

(** X11. A registered model whose limit allows neither CONTROL nor REGION
    passes through the loop without a trace: no warning is printed and its
    table joins neither list.  Both lists and the console are the ones the
    registry without the model would give. *)
Theorem classifier_drops_silently
        (model : Model) (sl : SiloLimit) (l1 l2 : list Model) :
  get_models h = (l1 ++ model :: l2)%list ->
  silo_limit model = Some sl ->
  mode_in CONTROL sl = false ->
  mode_in REGION sl = false ->
  (forall control_tables region_tables (w : World Output DockerState),
      classify_model (control_tables, region_tables) model w
      = ((control_tables, region_tables), w))
  /\
  (forall w : World Output DockerState,
      fst (table_lists h w)
      = ((control_tables_seed ++ tables_of CONTROL (l1 ++ l2))%list,
         (region_tables_seed ++ tables_of REGION (l1 ++ l2))%list)
      /\ trace (snd (table_lists h w)) = (trace w ++ warnings (l1 ++ l2))%list).
Proof.
  intros Hreg Hsl Hc Hr. split.
  - intros ct rt w. unfold classify_model. now rewrite Hsl, Hc, Hr.
  - intros w. rewrite table_lists_eq, Hreg. cbn [fst snd trace].
    rewrite !tables_of_app, !tables_of_cons, !warnings_app.
    unfold allows. cbn [warnings flat_map]. now rewrite Hsl, Hc, Hr.
Qed.

End ClassifierMore.

(** A registry with a model limited to the monolith mode. *)
Lemma classifier_drops_silently_witness :
  table_lists (Demo.host [Demo.project; Demo.legacy_model]) Demo.world
  = table_lists (Demo.host [Demo.project]) Demo.world.
Proof.
  pose proof (classifier_drops_silently
                (Demo.host [Demo.project; Demo.legacy_model])
                Demo.legacy_model {| modes := [MONOLITH] |} [Demo.project] []
                eq_refl eq_refl eq_refl eq_refl) as [Hstep _].
  unfold table_lists. cbn [get_models Demo.host for_each]. unfold bind.
  destruct (classify_model _ Demo.project Demo.world) as [[ct rt] w1].
  rewrite Hstep. reflexivity.
Defined.

(** * Properties of the grid list *)

Section GridListProperties.
Import GridList.
Context {Key : Type}.

Lemma listItems_In
      (collection : list (Node Key)) (hiddenOptions : Key -> bool) (node : Node Key) :
  In node (listItems collection hiddenOptions)
  <-> In node collection
      /\ if type node =? "section"
         then exists child, In child (childNodes node)
                            /\ hiddenOptions (key child) = false
         else hiddenOptions (key node) = false.
Proof.
  unfold listItems. rewrite filter_In.
  destruct (type node =? "section").
  - rewrite negb_true_iff, <- not_true_iff_false, forallb_forall. split.
    + intros [Hin Hnot]. split; [exact Hin|].
      induction (childNodes node) as [|child children IH].
      * contradiction Hnot. intros x [].
      * destruct (hiddenOptions (key child)) eqn:Hc.
        -- destruct IH as (c & Hc1 & Hc2).
           ++ intros Hall. apply Hnot. intros x [<-|Hx]; [exact Hc | now apply Hall].
           ++ exists c. split; [now right | exact Hc2].
        -- exists child. split; [now left | exact Hc].
    + intros [Hin (child & Hc1 & Hc2)]. split; [exact Hin|].
      intros Hall. specialize (Hall child Hc1). congruence.
  - now rewrite negb_true_iff.
Qed.

(** X12. A node of the collection is among the [listItems] of a grid list
    exactly when it is a section with at least one child whose key is not
    hidden, or any other node whose own key is not hidden.  The key of a
    section is not looked at, and a section without children is never
    listed. *)
Theorem listItems_visible
        (collection : list (Node Key)) (hiddenOptions : Key -> bool)
        (node : Node Key) :
  (In node (listItems collection hiddenOptions)
   <-> In node collection
       /\ if type node =? "section"
          then exists child, In child (childNodes node)
                             /\ hiddenOptions (key child) = false
          else hiddenOptions (key node) = false)
  /\ (type node = "section" -> childNodes node = [] ->
      ~ In node (listItems collection hiddenOptions)).
Proof.
  split; [apply listItems_In|].
  intros Ht He Hin. apply listItems_In in Hin. destruct Hin as [_ Hvis].
  rewrite Ht, He in Hvis. cbn in Hvis. now destruct Hvis as (child & [] & _).
Qed.

(** X13. Hiding more options never adds to the list: when every key hidden
    by one filter is hidden by a second, the [listItems] under the second are
    among the [listItems] under the first. *)
Theorem listItems_antitone
        (collection : list (Node Key)) (hidden1 hidden2 : Key -> bool) :
  (forall k, hidden1 k = true -> hidden2 k = true) ->
  incl (listItems collection hidden2) (listItems collection hidden1).
Proof.
  intros Hsub node Hin.
  apply listItems_In in Hin. apply listItems_In.
  destruct Hin as [Hin Hvis]. split; [exact Hin|].
  assert (Hk : forall k, hidden2 k = false -> hidden1 k = false).
  { intros k H2. destruct (hidden1 k) eqn:H1; [|reflexivity].
    apply Hsub in H1. congruence. }
  destruct (type node =? "section").
  - destruct Hvis as (child & Hc1 & Hc2). exists child. split; [exact Hc1 | now apply Hk].
  - now apply Hk.
Qed.

End GridListProperties.

(** An empty section between two options, none hidden: the section is not
    listed. *)
Lemma listItems_visible_witness :
  ~ In (GridList.Build_Node "section" "recent" [])
       (GridList.listItems
          [GridList.Build_Node "item" "a" [];
           GridList.Build_Node "section" "recent" [];
           GridList.Build_Node "item" "b" []]
          (fun _ => false)).
Proof.
  apply (proj2 (listItems_visible
                  [GridList.Build_Node "item" "a" [];
                   GridList.Build_Node "section" "recent" [];
                   GridList.Build_Node "item" "b" []]
                  (fun _ => false)
                  (GridList.Build_Node "section" "recent" []))
               eq_refl eq_refl).
Defined.

(** Hiding [b] on top of [a]. *)
Lemma listItems_antitone_witness :
  incl (GridList.listItems
          [GridList.Build_Node "item" "a" []; GridList.Build_Node "item" "b" [];
           GridList.Build_Node "item" "c" []]
          (fun k => (k =? "a") || (k =? "b")))
       (GridList.listItems
          [GridList.Build_Node "item" "a" []; GridList.Build_Node "item" "b" [];
           GridList.Build_Node "item" "c" []]
          (fun k => k =? "a")).
Proof.
  apply listItems_antitone. intros k Hk. now rewrite Hk.
Defined.

(** * Properties of the saved searches sidebar *)

Section SidebarProperties.
Import SavedSearches.

Variable orderBy : list SavedSearch -> list SavedSearch.
Hypothesis orderBy_permutes : forall searches, Permutation (orderBy searches) searches.

Lemma in_firstn {A} (n : nat) (l : list A) (x : A) : In x (firstn n l) -> In x l.
Proof.
  intros Hin. rewrite <- (firstn_skipn n l). apply in_or_app. now left.
Qed.

Lemma in_orgSavedSearches (savedSearches : list SavedSearch) (search : SavedSearch) :
  In search (orgSavedSearches orderBy savedSearches)
  <-> In search savedSearches /\ isGlobal search = false /\ isPinned search = false.
Proof.
  unfold orgSavedSearches. split.
  - intros Hin. apply (Permutation_in _ (orderBy_permutes _)) in Hin.
    apply filter_In in Hin as [Hin Hb]. apply andb_true_iff in Hb as [Hg Hp].
    apply negb_true_iff in Hg, Hp. now repeat split.
  - intros (Hin & Hg & Hp).
    apply (Permutation_in _ (Permutation_sym (orderBy_permutes _))).
    apply filter_In. split; [exact Hin|]. now rewrite Hg, Hp.
Qed.

Lemma length_orgSavedSearches (savedSearches : list SavedSearch) :
  List.length (orgSavedSearches orderBy savedSearches)
  = List.length (filter (fun search => negb (isGlobal search) && negb (isPinned search))
                        savedSearches).
Proof. unfold orgSavedSearches. apply Permutation_length, orderBy_permutes. Qed.

(** X14. When the sidebar is rendered, every saved search of the
    organization (neither global nor pinned) is accounted for: it is in the
    shown list or counted on the button that shows the rest.  Without
    [showAll] at most four are shown and the button appears exactly when
    there are more than four; with [showAll] all are shown and there is no
    button.  The text for an empty list appears exactly when the organization
    has no such search. *)
Theorem sidebar_accounts_for_every_search
        (isOpen isMobile prefersStackedNav isPending isError showAll : bool)
        (savedSearches shown : list SavedSearch) (noSavedSearchesText : bool)
        (showMore : option nat) (recommended : option (list SavedSearch)) :
  SavedIssueSearches orderBy isOpen isMobile prefersStackedNav isPending isError
                     showAll savedSearches
  = Sidebar shown noSavedSearchesText showMore recommended ->
  let n := List.length (filter (fun search => negb (isGlobal search)
                                              && negb (isPinned search))
                               savedSearches) in
  List.length shown = (if showAll then n else Nat.min MAX_SHOWN_SEARCHES n)
  /\ List.length shown + match showMore with Some k => k | None => 0 end = n
  /\ (showMore = None <-> showAll = true \/ n <= MAX_SHOWN_SEARCHES)
  /\ (noSavedSearchesText = true <-> n = 0).
Proof.
  unfold SavedIssueSearches.
  destruct (negb isOpen || isMobile || negb (negb prefersStackedNav));
    [discriminate|].
  destruct isPending; [discriminate|]. destruct isError; [discriminate|].
  intros E. injection E as <- <- <- _. cbv zeta.
  unfold shownOrgSavedSearches, MAX_SHOWN_SEARCHES.
  rewrite <- length_orgSavedSearches.
  set (org := orgSavedSearches orderBy savedSearches).
  destruct showAll.
  - rewrite Nat.ltb_irrefl, Nat.eqb_eq.
    split; [reflexivity|]. split; [lia|]. split; [|reflexivity].
    split; [now left | reflexivity].
  - rewrite length_firstn, Nat.eqb_eq.
    destruct (Nat.ltb_spec (Nat.min 4 (List.length org)) (List.length org))
      as [Hlt|Hge].
    + split; [reflexivity|]. split; [lia|]. split; [|lia].
      split; [discriminate | intros [?|?]; [discriminate | lia]].
    + split; [reflexivity|]. split; [lia|]. split; [|lia].
      split; [intros _; right; lia | reflexivity].
Qed.

(** X15. When the sidebar is rendered, every shown search comes from the
    fetched searches, is neither global nor pinned and carries the menu; with
    [showAll] every such search is shown.  The recommended list is present
    exactly when some fetched search is global, it holds the global searches
    and nothing else, and none of them carries the menu.  A pinned search
    that is not global is in neither list. *)
Theorem sidebar_lists
        (isOpen isMobile prefersStackedNav isPending isError showAll : bool)
        (savedSearches shown : list SavedSearch) (noSavedSearchesText : bool)
        (showMore : option nat) (recommended : option (list SavedSearch)) :
  SavedIssueSearches orderBy isOpen isMobile prefersStackedNav isPending isError
                     showAll savedSearches
  = Sidebar shown noSavedSearchesText showMore recommended ->
  (forall search, In search shown ->
                  In search savedSearches /\ isGlobal search = false
                  /\ isPinned search = false /\ hasMenu search = true)
  /\ (showAll = true ->
      forall search, In search savedSearches -> isGlobal search = false ->
                     isPinned search = false -> In search shown)
  /\ (forall search, In search savedSearches -> isGlobal search = true ->
                     exists searches, recommended = Some searches
                                      /\ In search searches)
  /\ (forall searches search, recommended = Some searches -> In search searches ->
                              In search savedSearches /\ isGlobal search = true
                              /\ hasMenu search = false).
Proof.
  unfold SavedIssueSearches.
  destruct (negb isOpen || isMobile || negb (negb prefersStackedNav));
    [discriminate|].
  destruct isPending; [discriminate|]. destruct isError; [discriminate|].
  intros E. injection E as <- _ _ <-.
  split; [|split; [|split]].
  - intros search Hin.
    assert (Horg : In search (orgSavedSearches orderBy savedSearches)).
    { unfold shownOrgSavedSearches in Hin. destruct showAll; [exact Hin|].
      apply (in_firstn _ _ _ Hin). }
    apply in_orgSavedSearches in Horg as (H1 & H2 & H3).
    unfold hasMenu. now rewrite H2.
  - intros -> search Hin Hg Hp. unfold shownOrgSavedSearches.
    now apply in_orgSavedSearches.
  - intros search Hin Hg.
    assert (Hrec : In search (recommendedSavedSearches savedSearches))
      by (apply filter_In; now split).
    destruct (recommendedSavedSearches savedSearches) as [|first rest] eqn:Er;
      [destruct Hrec|].
    cbn. now exists (first :: rest).
  - intros searches search Hsome Hin.
    destruct (0 <? _)%nat in Hsome; [|discriminate].
    injection Hsome as <-. apply filter_In in Hin as [Hin Hg].
    unfold hasMenu. now rewrite Hg.
Qed.

End SidebarProperties.

Section SortDesc.
Import SavedSearches.

Lemma insert_desc_permutes (search : SavedSearch) (sorted : list SavedSearch) :
  Permutation (insert_desc search sorted) (search :: sorted).
Proof.
  induction sorted as [|other rest IH]; [apply Permutation_refl|].
  cbn [insert_desc]. destruct (String.ltb _ _); [apply Permutation_refl|].
  apply perm_trans with (other :: search :: rest);
    [now apply perm_skip | apply perm_swap].
Qed.

Lemma sort_desc_permutes (searches : list SavedSearch) :
  Permutation (sort_desc searches) searches.
Proof.
  induction searches as [|search searches IH]; [apply perm_nil|].
  cbn [sort_desc fold_right]. fold (sort_desc searches).
  apply perm_trans with (search :: sort_desc searches);
    [apply insert_desc_permutes | now apply perm_skip].
Qed.

End SortDesc.

(** Of the five searches of the demo organization four are shown and one is
    behind the button. *)
Lemma sidebar_accounts_for_every_search_witness :
  List.length (SavedSearches.shownOrgSavedSearches
                 SavedSearches.sort_desc false DemoSearches.searches)
  + 1 = 5.
Proof.
  apply (proj1 (proj2 (sidebar_accounts_for_every_search
                         SavedSearches.sort_desc sort_desc_permutes
                         true false false false false false DemoSearches.searches
                         _ _ _ _ eq_refl))).
Defined.

(** The latest search of the demo organization is shown, with its menu. *)
Lemma sidebar_lists_witness :
  SavedSearches.isPinned (DemoSearches.search "7" "2024-04-02" false false) = false
  /\ SavedSearches.hasMenu (DemoSearches.search "7" "2024-04-02" false false) = true.
Proof.
  apply (proj1 (sidebar_lists
                  SavedSearches.sort_desc sort_desc_permutes
                  true false false false false false DemoSearches.searches
                  _ _ _ _ eq_refl)
               (DemoSearches.search "7" "2024-04-02" false false)).
  vm_compute. left. reflexivity.
Defined.
